(** * YouTube sentiment monitor: scorer, snapshot store, alert evaluator
      and per-video orchestration.

    Shallow embedding of [src/sentiment_analyzer.py], [src/config.py] and
    the [YouTubeSentimentMonitor] class of [src/youtube_monitor.py].

    Conventions of the embedding:
    - a Python float that is the result of ordinary arithmetic on finite
      values is an exact rational ([Q]); rounding is not modelled.  The one
      place where the source can produce a non-number, the mean of an empty
      column, is kept: [pyfloat] adds [NaN] to the rationals;
    - a timestamp is the text of [datetime.now().isoformat()]; SQLite orders
      such texts as the instants they denote, so a timestamp is an integer
      and [datetime.now()] reads a clock that moves forward at each reading;
    - an SQLite table is the list of its rows in insertion order, without
      the surrogate [id] column, which no statement of the program reads;
    - a raised exception is a value of [Exn]; computations that touch the
      database, the clock or the exception mechanism live in the monad [M]. *)

From Stdlib Require Import ZArith QArith Lqa Lia List String Bool.
Import ListNotations.

Set Warnings "-register-all".

Local Open Scope Z_scope.
Local Open Scope Q_scope.

(** ** Floats *)

Inductive pyfloat : Type :=
| Fin (q : Q)
| NaN.

(** [x < y] on rationals as a boolean. *)
Definition Qltb (x y : Q) : bool := negb (Qle_bool y x).

(** Python's [<] and [>] on floats: every comparison with NaN is false. *)
Definition pf_lt (a b : pyfloat) : bool :=
  match a, b with
  | Fin x, Fin y => Qltb x y
  | _, _ => false
  end.

Definition pf_gt (a b : pyfloat) : bool := pf_lt b a.

Definition pf_sub (a b : pyfloat) : pyfloat :=
  match a, b with
  | Fin x, Fin y => Fin (x - y)
  | _, _ => NaN
  end.

Definition pf_neg (a : pyfloat) : pyfloat :=
  match a with
  | Fin x => Fin (- x)
  | NaN => NaN
  end.

(** The order of the numbers behind [pf_lt]. *)
Definition pf_Lt (a b : pyfloat) : Prop :=
  match a, b with
  | Fin x, Fin y => x < y
  | _, _ => False
  end.

(** Numeric equality of floats (NaN is equal to nothing). *)
Definition pf_eq (a b : pyfloat) : Prop :=
  match a, b with
  | Fin x, Fin y => x == y
  | _, _ => False
  end.

(** ** Exceptions and results *)

Inductive Exn : Type :=
| HttpError (status : Z) (text : string)
| OperationalError (text : string)
| OtherException (text : string).

(** [str(e)] *)
Definition exn_str (e : Exn) : string :=
  match e with
  | HttpError _ t => t
  | OperationalError t => t
  | OtherException t => t
  end.

Inductive Result (A : Type) : Type :=
| Ok (a : A)
| Raise (e : Exn).

Arguments Ok {A} a.
Arguments Raise {A} e.

(** ** config.py *)

Definition SENTIMENT_THRESHOLD_POSITIVE : Q := 1 # 10.
Definition SENTIMENT_THRESHOLD_NEGATIVE : Q := - (1 # 10).

(** ** sentiment_analyzer.py *)

Module Analyzer.

(** The five strings returned by [categorize_sentiment]. *)
Inductive Category : Type :=
| VeryNegative
| Negative
| Neutral
| Positive
| VeryPositive.

(** [TextBlob(str(text)).sentiment.polarity]: the library is outside the
    repository, so the scorer takes it as a parameter.  It may raise. *)
Definition TextBlob := string -> Result Q.

(** [calculate_sentiment]: the whole body is under a bare [except]. *)
Definition calculate_sentiment (tb : TextBlob) (comment_text : string) : Q :=
  match tb comment_text with
  | Ok polarity => polarity
  | Raise _ => 0
  end.

Definition categorize_sentiment (polarity : Q)
    (positive_threshold negative_threshold : option Q) : Category :=
  let positive_threshold :=
    match positive_threshold with
    | None => SENTIMENT_THRESHOLD_POSITIVE
    | Some t => t
    end in
  let negative_threshold :=
    match negative_threshold with
    | None => SENTIMENT_THRESHOLD_NEGATIVE
    | Some t => t
    end in
  if Qltb polarity (- (1 # 2)) then VeryNegative
  else if Qltb polarity negative_threshold then Negative
  else if Qle_bool polarity positive_threshold then Neutral
  else if Qle_bool polarity (1 # 2) then Positive
  else VeryPositive.

End Analyzer.

(** ** youtube_monitor.py: data *)

Module Monitor.

Import Analyzer.

Local Open Scope string_scope.

(** A snippet of the API: every field is read with [.get(key, default)]. *)
Record Snippet : Type := {
  textDisplay : option string;
  authorDisplayName : option string;
  likeCount : option Z;
  publishedAt : option string;
  updatedAt : option string
}.

(** One item of a [commentThreads] page: the top-level comment and, when
    the key ['replies'] is present, its replies. *)
Record Thread : Type := {
  topLevelComment_id : string;
  topLevelComment_snippet : Snippet;
  replies : option (list (string * Snippet))
}.

(** What successive [request.execute()] calls of one pagination return:
    an exception, or a page with its items and, when the page carries a
    ['nextPageToken'], the answer to the request for the following page. *)
Inductive Response : Type :=
| RFail (e : Exn)
| RPage (items : list Thread) (nextPage : option Response).

(** The first item of a [videos().list] answer. *)
Record VideoItem : Type := {
  it_title : option string;
  it_channelTitle : option string;
  it_description : option string;
  it_publishedAt : option string;
  it_viewCount : option Z;
  it_likeCount : option Z;
  it_commentCount : option Z
}.

(** The collaborators held by [self]: the API client built in [__init__]
    and the TextBlob library.  The API answers depend on the video and on
    the time of the call. *)
Record Env : Type := {
  textblob : TextBlob;
  videos_list : string -> Z -> Result (option VideoItem);
  commentThreads_list : string -> Z -> Response
}.

(** A comment dictionary built by [fetch_video_comments]. *)
Record Comment : Type := {
  comment_id : string;
  c_video_id : string;
  comment_text : string;
  author : string;
  like_count : Z;
  published_at : string;
  updated_at : string;
  parent_id : option string
}.

(** A row of the analysed DataFrame. *)
Record Row : Type := {
  row_comment : Comment;
  Polarity : Q;
  sentiment_category : Category
}.

Definition DataFrame := list Row.

(** [df.empty] *)
Definition df_empty (df : DataFrame) : bool :=
  match df with
  | [] => true
  | _ :: _ => false
  end.

(** The dictionary returned by [get_video_info]. *)
Record VideoInfo : Type := {
  vi_video_id : string;
  vi_title : string;
  vi_channel_title : string;
  vi_description : string;
  vi_published_at : string;
  vi_view_count : Z;
  vi_like_count : Z;
  vi_comment_count : Z
}.

(** *** Tables *)

Record VideoInfoRow : Type := {
  vc_info : VideoInfo;
  vc_last_updated : Z
}.

Record HistoryRow : Type := {
  h_video_id : string;
  h_timestamp : Z;
  h_avg_sentiment : pyfloat;
  h_positive_count : Z;
  h_negative_count : Z;
  h_neutral_count : Z;
  h_total_comments : Z
}.

Record SnapshotRow : Type := {
  s_video_id : string;
  s_comment_id : string;
  s_timestamp : Z;
  s_comment_text : string;
  s_sentiment : Q;
  s_author : string;
  s_like_count : Z
}.

Inductive AlertType : Type :=
| negative_threshold
| positive_threshold
| sentiment_drop
| sentiment_rise.

(** The text of an alert, kept as the f-string's template and the values
    it interpolates (rendering with [:.3f] is not modelled). *)
Inductive Message : Type :=
| MsgBelow (threshold current : pyfloat)
| MsgExceeded (threshold current : pyfloat)
| MsgDropped (change previous current : pyfloat)
| MsgRose (change previous current : pyfloat).

(** An element of [alerts_triggered]. *)
Record AlertDict : Type := {
  al_type : AlertType;
  al_message : Message;
  al_threshold : pyfloat;
  al_value : pyfloat
}.

Record AlertRow : Type := {
  a_video_id : string;
  a_alert_type : AlertType;
  a_timestamp : Z;
  a_message : Message;
  a_threshold : pyfloat;
  a_current_value : pyfloat
}.

(** The four tables of [monitoring.db]. *)
Record Store : Type := {
  video_info_cache : list VideoInfoRow;
  video_sentiment_history : list HistoryRow;
  comment_snapshots : list SnapshotRow;
  alerts : list AlertRow
}.

(** [_init_database] on a fresh file: four empty tables. *)
Definition init_database : Store :=
  {| video_info_cache := [];
     video_sentiment_history := [];
     comment_snapshots := [];
     alerts := [] |}.

(** *** SQL statements *)

(** UNIQUE(video_id, timestamp) *)
Definition history_conflict (a b : HistoryRow) : bool :=
  String.eqb (h_video_id a) (h_video_id b) && Z.eqb (h_timestamp a) (h_timestamp b).

(** UNIQUE(video_id, comment_id, timestamp) *)
Definition snapshot_conflict (a b : SnapshotRow) : bool :=
  String.eqb (s_video_id a) (s_video_id b)
  && String.eqb (s_comment_id a) (s_comment_id b)
  && Z.eqb (s_timestamp a) (s_timestamp b).

(** video_id TEXT PRIMARY KEY *)
Definition video_info_conflict (a b : VideoInfoRow) : bool :=
  String.eqb (vi_video_id (vc_info a)) (vi_video_id (vc_info b)).

(** INSERT OR REPLACE: the rows in conflict with the new one are deleted,
    then the new row is inserted. *)
Definition insert_or_replace {A : Type} (conflict : A -> A -> bool)
    (row : A) (table : list A) : list A :=
  filter (fun r => negb (conflict row r)) table ++ [row].

(** INSERT OR IGNORE: a row in conflict with an existing one is skipped. *)
Definition insert_or_ignore {A : Type} (conflict : A -> A -> bool)
    (row : A) (table : list A) : list A :=
  if existsb (conflict row) table then table else table ++ [row].

(** SELECT ... FROM video_sentiment_history WHERE video_id = ?
    ORDER BY timestamp DESC LIMIT 1 *)
Fixpoint select_latest_history (video_id : string) (table : list HistoryRow)
    : option HistoryRow :=
  match table with
  | [] => None
  | r :: rest =>
      if String.eqb (h_video_id r) video_id then
        match select_latest_history video_id rest with
        | Some r' => if Z.ltb (h_timestamp r) (h_timestamp r') then Some r' else Some r
        | None => Some r
        end
      else select_latest_history video_id rest
  end.

(** SELECT * FROM video_info_cache WHERE video_id = ? *)
Definition select_video_info (video_id : string) (table : list VideoInfoRow)
    : option VideoInfoRow :=
  find (fun r => String.eqb (vi_video_id (vc_info r)) video_id) table.

(** ** youtube_monitor.py: the world and its monad *)

(** The mutable surroundings of the monitor: the database file, the clock
    read by [datetime.now()] and the outcomes of the coming
    [sqlite3.connect] calls ([Some text]: the call raises
    [sqlite3.OperationalError(text)]; past the end of the list every call
    succeeds). *)
Record World : Type := {
  store : Store;
  clock : Z;
  db_faults : list (option string)
}.

Definition M (A : Type) : Type := World -> Result A * World.

Definition ret {A : Type} (a : A) : M A := fun w => (Ok a, w).

Definition bind {A B : Type} (m : M A) (k : A -> M B) : M B :=
  fun w =>
    match m w with
    | (Ok a, w') => k a w'
    | (Raise e, w') => (Raise e, w')
    end.

(** [try: m  except Exception as e: h e] *)
Definition try_except {A : Type} (m : M A) (h : Exn -> M A) : M A :=
  fun w =>
    match m w with
    | (Ok a, w') => (Ok a, w')
    | (Raise e, w') => h e w'
    end.

Declare Scope monad_scope.
Delimit Scope monad_scope with monad.
Notation "x <- m ;; k" := (bind m (fun x => k))
  (at level 100, m at next level, right associativity) : monad_scope.
Notation "m ;;; k" := (bind m (fun _ => k))
  (at level 100, right associativity) : monad_scope.

(** The clock after one reading. *)
Definition tick (w : World) : World :=
  {| store := store w; clock := (clock w + 1)%Z; db_faults := db_faults w |}.

(** [datetime.now().isoformat()] *)
Definition now : M Z := fun w => (Ok (clock w), tick w).

(** [sqlite3.connect(self.monitoring_db)] *)
Definition connect : M unit :=
  fun w =>
    match db_faults w with
    | [] => (Ok tt, w)
    | None :: fs =>
        (Ok tt, {| store := store w; clock := clock w; db_faults := fs |})
    | Some text :: fs =>
        (Raise (OperationalError text),
         {| store := store w; clock := clock w; db_faults := fs |})
    end.

(** Read the tables through the open connection. *)
Definition query {A : Type} (f : Store -> A) : M A :=
  fun w => (Ok (f (store w)), w).

(** Statements followed by [conn.commit()]. *)
Definition commit (f : Store -> Store) : M unit :=
  fun w => (Ok tt,
            {| store := f (store w); clock := clock w; db_faults := db_faults w |}).

(** The time at which an API request is answered. *)
Definition api_time : M Z := fun w => (Ok (clock w), w).

(** ** youtube_monitor.py: the API client *)

Definition get_or {A : Type} (o : option A) (default : A) : A :=
  match o with
  | Some a => a
  | None => default
  end.

(** [snippet.get('description', '')[:200]] *)
Definition truncate200 (s : string) : string := String.substring 0 200 s.

(** [get_video_info]: every exception is caught and printed; the caller
    receives [None] then, as when the answer has no item. *)
Definition get_video_info (env : Env) (video_id : string) : M (option VideoInfo) :=
  (t <- api_time ;;
   match videos_list env video_id t with
   | Ok (Some item) =>
       ret (Some {| vi_video_id := video_id;
                    vi_title := get_or (it_title item) "Unknown";
                    vi_channel_title := get_or (it_channelTitle item) "Unknown";
                    vi_description := truncate200 (get_or (it_description item) EmptyString);
                    vi_published_at := get_or (it_publishedAt item) EmptyString;
                    vi_view_count := get_or (it_viewCount item) 0%Z;
                    vi_like_count := get_or (it_likeCount item) 0%Z;
                    vi_comment_count := get_or (it_commentCount item) 0%Z |})
   | Ok None => ret None
   | Raise _ => ret None
   end)%monad.

Definition snippet_comment (video_id id : string) (s : Snippet)
    (parent : option string) : Comment :=
  {| comment_id := id;
     c_video_id := video_id;
     comment_text := get_or (textDisplay s) EmptyString;
     author := get_or (authorDisplayName s) EmptyString;
     like_count := get_or (likeCount s) 0%Z;
     published_at := get_or (publishedAt s) EmptyString;
     updated_at := get_or (updatedAt s) EmptyString;
     parent_id := parent |}.

(** The comments appended for one item: the top-level comment, then its
    replies, each carrying the top-level comment's id as ['parent_id']. *)
Definition thread_comments (video_id : string) (item : Thread) : list Comment :=
  snippet_comment video_id (topLevelComment_id item) (topLevelComment_snippet item) None
  :: match replies item with
     | Some rs =>
         map (fun r => snippet_comment video_id (fst r) (snd r)
                         (Some (topLevelComment_id item))) rs
     | None => []
     end.

(** The body of the [while] loop, entered with [len(comments) < max_results].
    The list is extended in place, so what was collected before an exception
    survives it.  Returns the list and the exception raised, if any. *)
Fixpoint fetch_pages (video_id : string) (max_results : Z) (response : Response)
    (comments : list Comment) : list Comment * option Exn :=
  match response with
  | RFail e => (comments, Some e)
  | RPage items nextPage =>
      let comments := (comments ++ flat_map (thread_comments video_id) items)%list in
      match nextPage with
      | Some next =>
          if (Z.of_nat (List.length comments) <? max_results)%Z
          then fetch_pages video_id max_results next comments
          else (comments, None)
      | None => (comments, None)
      end
  end.

(** The line printed by the two [except] clauses of [fetch_video_comments]. *)
Definition fetch_error_message (video_id : string) (e : Exn) : string :=
  match e with
  | HttpError status _ =>
      if (status =? 403)%Z then
        "API quota exceeded or access denied for video " ++ video_id
      else if (status =? 404)%Z then
        "Video " ++ video_id ++ " not found"
      else
        "Error fetching comments for video " ++ video_id ++ ": " ++ exn_str e
  | _ =>
      "Unexpected error fetching comments for video " ++ video_id ++ ": " ++ exn_str e
  end.

(** [fetch_video_comments] at the time [t] of the call: the returned list
    and, beside it, the lines printed on standard output.  No exception
    leaves the function. *)
Definition fetch_video_comments_at (env : Env) (video_id : string) (max_results : Z)
    (t : Z) : list Comment * list string :=
  match videos_list env video_id t with
  | Raise e => ([], [fetch_error_message video_id e])
  | Ok None => ([], ["Video " ++ video_id ++ " not found or not accessible"])
  | Ok (Some _) =>
      if (0 <? max_results)%Z then
        match fetch_pages video_id max_results (commentThreads_list env video_id t) [] with
        | (comments, Some e) => (comments, [fetch_error_message video_id e])
        | (comments, None) => (comments, [])
        end
      else ([], [])
  end.

(** What the caller of [fetch_video_comments] receives: the list alone. *)
Definition fetch_video_comments (env : Env) (video_id : string) (max_results : Z)
    : M (list Comment) :=
  (t <- api_time ;;
   ret (fst (fetch_video_comments_at env video_id max_results t)))%monad.

(** ** youtube_monitor.py: scoring a fetch *)

Definition analyze_sentiment_batch (tb : TextBlob) (df : list Comment)
    : list (Comment * Q) :=
  map (fun c => (c, calculate_sentiment tb (comment_text c))) df.

Definition add_sentiment_categories (df : list (Comment * Q)) : DataFrame :=
  map (fun r => {| row_comment := fst r;
                   Polarity := snd r;
                   sentiment_category := categorize_sentiment (snd r) None None |}) df.

Definition analyze_comments_sentiment (tb : TextBlob) (comments : list Comment)
    : DataFrame :=
  match comments with
  | [] => []
  | _ :: _ => add_sentiment_categories (analyze_sentiment_batch tb comments)
  end.

(** ** youtube_monitor.py: the snapshot store *)

(** [Series.mean()]: NaN on an empty column. *)
Definition series_mean (xs : list Q) : pyfloat :=
  match xs with
  | [] => NaN
  | _ :: _ => Fin (fold_left Qplus xs 0 / inject_Z (Z.of_nat (List.length xs)))
  end.

(** [(series > c).sum()] and [(series < c).sum()] *)
Definition count_gt (c : Q) (xs : list Q) : Z :=
  Z.of_nat (List.length (filter (fun p => Qltb c p) xs)).

Definition count_lt (c : Q) (xs : list Q) : Z :=
  Z.of_nat (List.length (filter (fun p => Qltb p c) xs)).

Definition df_len (df : DataFrame) : Z := Z.of_nat (List.length df).

Definition snapshot_row (video_id : string) (timestamp : Z) (row : Row) : SnapshotRow :=
  {| s_video_id := video_id;
     s_comment_id := comment_id (row_comment row);
     s_timestamp := timestamp;
     s_comment_text := comment_text (row_comment row);
     s_sentiment := Polarity row;
     s_author := author (row_comment row);
     s_like_count := like_count (row_comment row) |}.

Definition history_row (video_id : string) (timestamp : Z) (comments_df : DataFrame)
    : HistoryRow :=
  let avg_sentiment := series_mean (map Polarity comments_df) in
  let positive_count := count_gt (1 # 10) (map Polarity comments_df) in
  let negative_count := count_lt (- (1 # 10)) (map Polarity comments_df) in
  let neutral_count := (df_len comments_df - positive_count - negative_count)%Z in
  {| h_video_id := video_id;
     h_timestamp := timestamp;
     h_avg_sentiment := avg_sentiment;
     h_positive_count := positive_count;
     h_negative_count := negative_count;
     h_neutral_count := neutral_count;
     h_total_comments := df_len comments_df |}.

(** The loop of INSERT OR IGNORE statements over the rows of the frame. *)
Definition append_comment_snapshots (video_id : string) (timestamp : Z)
    (comments_df : DataFrame) (table : list SnapshotRow) : list SnapshotRow :=
  fold_left (fun t row => insert_or_ignore snapshot_conflict
                            (snapshot_row video_id timestamp row) t)
            comments_df table.

(** The INSERT OR REPLACE of the aggregate row. *)
Definition append_history (entry : HistoryRow) (table : list HistoryRow)
    : list HistoryRow :=
  insert_or_replace history_conflict entry table.

(** The statements of [save_snapshot] with the timestamp it has read. *)
Definition save_snapshot_at (timestamp : Z) (video_id : string)
    (comments_df : DataFrame) (s : Store) : Store :=
  {| video_info_cache := video_info_cache s;
     video_sentiment_history :=
       append_history (history_row video_id timestamp comments_df)
                      (video_sentiment_history s);
     comment_snapshots :=
       append_comment_snapshots video_id timestamp comments_df (comment_snapshots s);
     alerts := alerts s |}.

Definition save_snapshot (video_id : string) (comments_df : DataFrame) : M unit :=
  if df_empty comments_df then ret tt
  else (connect ;;;
        timestamp <- now ;;
        commit (save_snapshot_at timestamp video_id comments_df))%monad.

(** ** youtube_monitor.py: the alert evaluator *)

Record Thresholds : Type := {
  th_negative_threshold : pyfloat;
  th_positive_threshold : pyfloat;
  th_drop_threshold : pyfloat;
  th_rise_threshold : pyfloat
}.

(** The dictionary used when [thresholds is None]. *)
Definition default_thresholds : Thresholds :=
  {| th_negative_threshold := Fin (- (3 # 10));
     th_positive_threshold := Fin (1 # 2);
     th_drop_threshold := Fin (2 # 10);
     th_rise_threshold := Fin (2 # 10) |}.

(** [result[0] if result else None] for the row fetched by the SELECT.
    SQLite keeps a NaN as NULL, which Python reads back as [None]. *)
Definition previous_sentiment_of (video_id : string) (s : Store) : option pyfloat :=
  match select_latest_history video_id (video_sentiment_history s) with
  | Some r =>
      match h_avg_sentiment r with
      | Fin q => Some (Fin q)
      | NaN => None
      end
  | None => None
  end.

(** The list [alerts_triggered] built by the four [if] statements. *)
Definition alerts_triggered (previous_sentiment : option pyfloat)
    (current_sentiment : pyfloat) (thresholds : Thresholds) : list AlertDict :=
  ((if pf_lt current_sentiment (th_negative_threshold thresholds) then
      [ {| al_type := negative_threshold;
           al_message := MsgBelow (th_negative_threshold thresholds) current_sentiment;
           al_threshold := th_negative_threshold thresholds;
           al_value := current_sentiment |} ]
    else [])
   ++
   (if pf_gt current_sentiment (th_positive_threshold thresholds) then
      [ {| al_type := positive_threshold;
           al_message := MsgExceeded (th_positive_threshold thresholds) current_sentiment;
           al_threshold := th_positive_threshold thresholds;
           al_value := current_sentiment |} ]
    else [])
   ++
   match previous_sentiment with
   | Some previous =>
       let sentiment_change := pf_sub current_sentiment previous in
       (if pf_lt sentiment_change (pf_neg (th_drop_threshold thresholds)) then
          [ {| al_type := sentiment_drop;
               al_message := MsgDropped sentiment_change previous current_sentiment;
               al_threshold := th_drop_threshold thresholds;
               al_value := sentiment_change |} ]
        else [])
       ++
       (if pf_gt sentiment_change (th_rise_threshold thresholds) then
          [ {| al_type := sentiment_rise;
               al_message := MsgRose sentiment_change previous current_sentiment;
               al_threshold := th_rise_threshold thresholds;
               al_value := sentiment_change |} ]
        else [])
   | None => []
   end)%list.

Definition alert_row (video_id : string) (timestamp : Z) (alert : AlertDict) : AlertRow :=
  {| a_video_id := video_id;
     a_alert_type := al_type alert;
     a_timestamp := timestamp;
     a_message := al_message alert;
     a_threshold := al_threshold alert;
     a_current_value := al_value alert |}.

(** The loop of INSERT statements that saves the alerts. *)
Definition save_alerts (video_id : string) (timestamp : Z) (triggered : list AlertDict)
    (s : Store) : Store :=
  {| video_info_cache := video_info_cache s;
     video_sentiment_history := video_sentiment_history s;
     comment_snapshots := comment_snapshots s;
     alerts := (alerts s ++ map (alert_row video_id timestamp) triggered)%list |}.

Definition check_sentiment_alerts (video_id : string) (current_sentiment : pyfloat)
    (thresholds : option Thresholds) : M (list AlertDict) :=
  let thresholds := get_or thresholds default_thresholds in
  (connect ;;;
   timestamp <- now ;;
   previous_sentiment <- query (previous_sentiment_of video_id) ;;
   let triggered := alerts_triggered previous_sentiment current_sentiment thresholds in
   commit (save_alerts video_id timestamp triggered) ;;;
   ret triggered)%monad.

(** ** youtube_monitor.py: the video-info cache *)

Definition upsert_video_info (info : VideoInfo) (timestamp : Z) (s : Store) : Store :=
  {| video_info_cache :=
       insert_or_replace video_info_conflict
         {| vc_info := info; vc_last_updated := timestamp |} (video_info_cache s);
     video_sentiment_history := video_sentiment_history s;
     comment_snapshots := comment_snapshots s;
     alerts := alerts s |}.

Definition cache_video_info (env : Env) (video_id : string) : M (option VideoInfo) :=
  (video_info <- get_video_info env video_id ;;
   match video_info with
   | Some info =>
       connect ;;;
       timestamp <- now ;;
       commit (upsert_video_info info timestamp) ;;;
       ret (Some info)
   | None => ret None
   end)%monad.

Definition get_cached_video_info (video_id : string) : M (option VideoInfo) :=
  (connect ;;;
   row <- query (fun s => select_video_info video_id (video_info_cache s)) ;;
   match row with
   | Some r => ret (Some (vc_info r))
   | None => ret None
   end)%monad.

Definition get_video_title (env : Env) (video_id : string) : M string :=
  (cached <- get_cached_video_info video_id ;;
   match cached with
   | Some info => ret (vi_title info)
   | None =>
       video_info <- cache_video_info env video_id ;;
       match video_info with
       | Some info => ret (vi_title info)
       | None => ret video_id
       end
   end)%monad.

(** ** youtube_monitor.py: the orchestrator *)

Inductive Status : Type :=
| success
| no_comments
| analysis_failed
| error.

(** The keys a result carries only when its status is ['success']. *)
Record Metrics : Type := {
  m_total_comments : Z;
  m_avg_sentiment : pyfloat;
  m_positive_pct : Q;
  m_negative_pct : Q;
  m_neutral_pct : Q;
  m_positive_count : Z;
  m_negative_count : Z;
  m_neutral_count : Z;
  m_alerts : Z;
  m_comments_df : DataFrame
}.

(** A result dictionary; ['error'] is present only on an error entry. *)
Record MonitorResult : Type := {
  mr_video_id : string;
  mr_status : Status;
  mr_timestamp : Z;
  mr_error : option string;
  mr_metrics : option Metrics
}.

Definition plain_result (video_id : string) (status : Status) (timestamp : Z)
    : MonitorResult :=
  {| mr_video_id := video_id;
     mr_status := status;
     mr_timestamp := timestamp;
     mr_error := None;
     mr_metrics := None |}.

Definition error_result (video_id : string) (e : Exn) (timestamp : Z) : MonitorResult :=
  {| mr_video_id := video_id;
     mr_status := error;
     mr_timestamp := timestamp;
     mr_error := Some (exn_str e);
     mr_metrics := None |}.

(** The metrics computed after the snapshot is saved (the frame is not
    empty there, so the divisions are by a positive length). *)
Definition success_metrics (comments_df : DataFrame) (alerts : list AlertDict) : Metrics :=
  let pol := map Polarity comments_df in
  let positive_pct := inject_Z (count_gt (1 # 10) pol) / inject_Z (df_len comments_df) * 100 in
  let negative_pct := inject_Z (count_lt (- (1 # 10)) pol) / inject_Z (df_len comments_df) * 100 in
  {| m_total_comments := df_len comments_df;
     m_avg_sentiment := series_mean pol;
     m_positive_pct := positive_pct;
     m_negative_pct := negative_pct;
     m_neutral_pct := 100 - positive_pct - negative_pct;
     m_positive_count := count_gt (1 # 10) pol;
     m_negative_count := count_lt (- (1 # 10)) pol;
     m_neutral_count :=
       (df_len comments_df - count_gt (1 # 10) pol - count_lt (- (1 # 10)) pol)%Z;
     m_alerts := Z.of_nat (List.length alerts);
     m_comments_df := comments_df |}.

Definition monitor_video (env : Env) (video_id : string) (max_comments : Z)
    (check_alerts : bool) : M MonitorResult :=
  (video_title <- get_video_title env video_id ;;
   printed_at <- now ;;
   comments <- fetch_video_comments env video_id max_comments ;;
   match comments with
   | [] =>
       timestamp <- now ;;
       ret (plain_result video_id no_comments timestamp)
   | _ :: _ =>
       let comments_df := analyze_comments_sentiment (textblob env) comments in
       if df_empty comments_df then
         timestamp <- now ;;
         ret (plain_result video_id analysis_failed timestamp)
       else
         save_snapshot video_id comments_df ;;;
         let avg_sentiment := series_mean (map Polarity comments_df) in
         alerts <- (if check_alerts
                    then check_sentiment_alerts video_id avg_sentiment None
                    else ret []) ;;
         timestamp <- now ;;
         ret {| mr_video_id := video_id;
                mr_status := success;
                mr_timestamp := timestamp;
                mr_error := None;
                mr_metrics := Some (success_metrics comments_df alerts) |}
   end)%monad.

(** One turn of the [for] loop of [monitor_all_videos]: the call under
    [try], and the entry built by the [except Exception] clause. *)
Definition monitor_one (env : Env) (max_comments : Z) (check_alerts : bool)
    (video_id : string) : M MonitorResult :=
  try_except (monitor_video env video_id max_comments check_alerts)
             (fun e => (timestamp <- now ;;
                        ret (error_result video_id e timestamp))%monad).

(** The [for] loop, with [results] as it stands when the loop reaches
    [video_ids]. *)
Fixpoint monitor_loop (env : Env) (max_comments : Z) (check_alerts : bool)
    (video_ids : list string) (results : list MonitorResult)
    : M (list MonitorResult) :=
  match video_ids with
  | [] => ret results
  | video_id :: rest =>
      (result <- monitor_one env max_comments check_alerts video_id ;;
       monitor_loop env max_comments check_alerts rest (results ++ [result])%list)%monad
  end.

Definition monitor_all_videos (env : Env) (video_ids : list string) (max_comments : Z)
    (check_alerts : bool) : M (list MonitorResult) :=
  match video_ids with
  | [] => ret []
  | _ :: _ => monitor_loop env max_comments check_alerts video_ids []
  end.

End Monitor.

(** ** Predicates used to state the properties *)

Module Props.

Import Analyzer Monitor.

(** No two rows of a table are in conflict (the UNIQUE constraint holds). *)
Fixpoint unique_rows {A : Type} (conflict : A -> A -> bool) (table : list A) : Prop :=
  match table with
  | [] => True
  | r :: rest => (forall r', In r' rest -> conflict r r' = false) /\ unique_rows conflict rest
  end.



(** The next [sqlite3.connect] succeeds. *)
Definition connects (w : World) : Prop :=
  match db_faults w with
  | Some _ :: _ => False
  | _ => True
  end.

(** A computation keeps a property of the tables, whatever its outcome. *)
Definition preserves (I : Store -> Prop) {A : Type} (m : M A) : Prop :=
  forall w, I (store w) -> I (store (snd (m w))).

End Props.

(** ** Concrete collaborators and worlds used by the examples *)

Module Samples.

Import Analyzer Monitor.

Local Open Scope string_scope.

(** A scorer standing for TextBlob: it fails on the empty text and knows
    two words. *)
Definition sample_textblob : TextBlob :=
  fun s =>
    if String.eqb s EmptyString then Raise (OtherException "empty")
    else if String.eqb s "meh" then Ok (1 # 10)
    else if String.eqb s "awful" then Ok (- (7 # 10))
    else Ok (1 # 2).

Definition sample_item : VideoItem :=
  {| it_title := Some "A talk";
     it_channelTitle := Some "Talks";
     it_description := Some "Recorded live";
     it_publishedAt := Some "2024-01-01T00:00:00Z";
     it_viewCount := Some 120%Z;
     it_likeCount := Some 7%Z;
     it_commentCount := Some 1%Z |}.

Definition sample_thread (id text : string) : Thread :=
  {| topLevelComment_id := id;
     topLevelComment_snippet :=
       {| textDisplay := Some text;
          authorDisplayName := Some "ann";
          likeCount := Some 3%Z;
          publishedAt := None;
          updatedAt := None |};
     replies := None |}.

(** An API on which the video ids ["denied"], ["gone"] and ["broken"] fail
    with HTTP 403, 404 and 500, ["absent"] is unknown, ["quiet"] has no
    comment, ["closed"] has its comments disabled, and every other video
    has the single comment ["meh"]. *)
Definition sample_env : Env :=
  {| textblob := sample_textblob;
     videos_list := fun video_id _ =>
       if String.eqb video_id "denied" then Raise (HttpError 403 "forbidden")
       else if String.eqb video_id "gone" then Raise (HttpError 404 "no such video")
       else if String.eqb video_id "broken" then Raise (HttpError 500 "backend error")
       else if String.eqb video_id "absent" then Ok None
       else Ok (Some sample_item);
     commentThreads_list := fun video_id _ =>
       if String.eqb video_id "quiet" then RPage [] None
       else if String.eqb video_id "closed" then RFail (HttpError 403 "commentsDisabled")
       else RPage [sample_thread "c1" "meh"] None |}.

(** The history entry of an earlier cycle on ["v1"]: average 0.4. *)
Definition earlier_entry : HistoryRow :=
  {| h_video_id := "v1";
     h_timestamp := 5%Z;
     h_avg_sentiment := Fin (4 # 10);
     h_positive_count := 1%Z;
     h_negative_count := 0%Z;
     h_neutral_count := 0%Z;
     h_total_comments := 1%Z |}.

Definition world_after_one_cycle : World :=
  {| store := {| video_info_cache := [];
                 video_sentiment_history := [earlier_entry];
                 comment_snapshots := [];
                 alerts := [] |};
     clock := 10%Z;
     db_faults := [] |}.

Definition fresh_world : World :=
  {| store := init_database; clock := 0%Z; db_faults := [] |}.

(** A world in which the third connection to the database fails. *)
Definition world_with_fault : World :=
  {| store := init_database;
     clock := 0%Z;
     db_faults := [None; None; Some "database is locked"] |}.

Definition sample_row (id text : string) (polarity : Q) : Row :=
  {| row_comment := {| comment_id := id; c_video_id := "v1"; comment_text := text;
                       author := "ann"; like_count := 0%Z;
                       published_at := EmptyString; updated_at := EmptyString;
                       parent_id := None |};
     Polarity := polarity;
     sentiment_category := categorize_sentiment polarity None None |}.

Definition sample_frame : DataFrame :=
  [sample_row "c1" "meh" (1 # 10); sample_row "c2" "awful" (- (7 # 10))].

End Samples.

(** ** youtube_monitor.py: the list of tracked videos *)

Module Tracked.

Import Monitor.

Local Open Scope string_scope.

(** [video_id in self.video_ids] *)
Definition tracked (video_id : string) (video_ids : list string) : bool :=
  existsb (String.eqb video_id) video_ids.

(** [list.remove(x)] on a list that holds [x]: the first occurrence goes. *)
Fixpoint list_remove (x : string) (l : list string) : list string :=
  match l with
  | [] => []
  | y :: rest => if String.eqb y x then rest else y :: list_remove x rest
  end.

(** [add_video]: the value of [self.video_ids] after the call, and what the
    call does to the world.  The list is extended before the cache is
    touched, so it stays extended when caching raises. *)
Definition add_video (env : Env) (video_id : string) (video_ids : list string)
    : list string * M unit :=
  if tracked video_id video_ids then (video_ids, ret tt)
  else ((video_ids ++ [video_id])%list,
        (video_info <- cache_video_info env video_id ;; ret tt)%monad).

(** [remove_video]: it touches neither the database nor the API. *)
Definition remove_video (video_id : string) (video_ids : list string) : list string :=
  if tracked video_id video_ids then list_remove video_id video_ids else video_ids.

End Tracked.

(** ** youtube_monitor.py: reading the history and the alerts *)

Module Queries.

Import Monitor.









End Queries.

(** ** youtube_monitor.py: the analysis that persists nothing *)

Module Quick.

Import Analyzer Monitor.

Local Open Scope string_scope.

(** The keys of the dictionary [analyze_video_comments] returns on success. *)
Record Analysis : Type := {
  an_video_title : string;
  an_total_comments : Z;
  an_avg_sentiment : pyfloat;
  an_positive_count : Z;
  an_negative_count : Z;
  an_neutral_count : Z;
  an_positive_pct : Q;
  an_negative_pct : Q;
  an_neutral_pct : Q;
  an_comments_df : DataFrame
}.

(** The dictionary itself: ['message'] comes with the two failure
    statuses, the analysis with ['success']. *)
Record AnalysisResult : Type := {
  ar_video_id : string;
  ar_status : Status;
  ar_message : option string;
  ar_analysis : option Analysis
}.

Definition analyze_video_comments (env : Env) (video_id : string) (max_comments : Z)
    : M AnalysisResult :=
  (comments <- fetch_video_comments env video_id max_comments ;;
   match comments with
   | [] =>
       ret {| ar_video_id := video_id;
              ar_status := no_comments;
              ar_message := Some "No comments found or video not accessible";
              ar_analysis := None |}
   | _ :: _ =>
       let comments_df := analyze_comments_sentiment (textblob env) comments in
       if df_empty comments_df then
         ret {| ar_video_id := video_id;
                ar_status := analysis_failed;
                ar_message := Some "Failed to analyze comments";
                ar_analysis := None |}
       else
         video_info <- get_video_info env video_id ;;
         let video_title :=
           match video_info with
           | Some info => vi_title info
           | None => video_id
           end in
         let pol := map Polarity comments_df in
         let avg_sentiment := series_mean pol in
         let positive_count := count_gt (1 # 10) pol in
         let negative_count := count_lt (- (1 # 10)) pol in
         let neutral_count := (df_len comments_df - positive_count - negative_count)%Z in
         ret {| ar_video_id := video_id;
                ar_status := success;
                ar_message := None;
                ar_analysis :=
                  Some {| an_video_title := video_title;
                          an_total_comments := df_len comments_df;
                          an_avg_sentiment := avg_sentiment;
                          an_positive_count := positive_count;
                          an_negative_count := negative_count;
                          an_neutral_count := neutral_count;
                          an_positive_pct :=
                            inject_Z positive_count / inject_Z (df_len comments_df) * 100;
                          an_negative_pct :=
                            inject_Z negative_count / inject_Z (df_len comments_df) * 100;
                          an_neutral_pct :=
                            inject_Z neutral_count / inject_Z (df_len comments_df) * 100;
                          an_comments_df := comments_df |} |}
   end)%monad.

End Quick.

(** ** youtube_monitor.py: the videos of a channel *)

From Stdlib Require Import Ascii.

Module Channel.

Import Monitor.

Local Open Scope string_scope.

(** *** Python string operations used on the channel URL *)

(** [sub in s] *)
Fixpoint contains (sub s : string) : bool :=
  String.prefix sub s
  || match s with
     | EmptyString => false
     | String _ rest => contains sub rest
     end.

(** [s.split(sep)] for a separator that is not empty: the text is read
    from the left; where the separator starts, the piece read so far is
    closed and the characters of the separator are passed over ([skip]
    counts those still to pass). *)
Fixpoint split_from (sep : string) (skip : nat) (piece : string) (s : string)
    : list string :=
  match s with
  | EmptyString => [piece]
  | String c rest =>
      match skip with
      | S k => split_from sep k piece rest
      | O =>
          if String.prefix sep s
          then piece :: split_from sep (String.length sep - 1) EmptyString rest
          else split_from sep 0 (piece ++ String c EmptyString) rest
      end
  end.

Definition split (sep s : string) : list string := split_from sep 0 EmptyString s.

(** [s.split(sep)[0]] and [s.split(sep)[-1]] *)
Definition first_piece (sep s : string) : string := hd EmptyString (split sep s).
Definition last_piece (sep s : string) : string := last (split sep s) EmptyString.

(** [s.lstrip('@')] *)
Fixpoint lstrip_at (s : string) : string :=
  match s with
  | String c rest => if Ascii.eqb c "@"%char then lstrip_at rest else s
  | EmptyString => s
  end.

(** The truth value of an argument that is [None] or a string. *)
Definition truthy (o : option string) : bool :=
  match o with
  | Some (String _ _) => true
  | _ => false
  end.

(** *** The API *)

(** An item of a video search, with the fields the client reads. *)
Record SearchItem : Type := {
  si_videoId : string;
  si_title : option string;
  si_channelTitle : option string;
  si_channelId : option string;
  si_description : option string;
  si_publishedAt : option string;
  si_thumbnail : option string
}.

(** The answers of one pagination of the video search. *)
Inductive VideoResponse : Type :=
| VFail (e : Exn)
| VPage (items : list SearchItem) (nextPage : option VideoResponse).

(** The three requests of [fetch_channel_videos]: the legacy lookup of a
    username and the search of a channel by name, each answering with the
    channel id of its first item if it has one, and the search of the videos
    of a channel in a given order. *)
Record ChannelApi : Type := {
  channels_list_forUsername : string -> Result (option string);
  search_channel : string -> Result (option string);
  search_videos : string -> string -> VideoResponse
}.

(** A video dictionary of the returned list. *)
Record VideoSummary : Type := {
  vs_video_id : string;
  vs_title : string;
  vs_channel_title : string;
  vs_channel_id : string;
  vs_description : string;
  vs_published_at : string;
  vs_thumbnail : string
}.

Definition video_summary (item : SearchItem) : VideoSummary :=
  {| vs_video_id := si_videoId item;
     vs_title := get_or (si_title item) "Unknown";
     vs_channel_title := get_or (si_channelTitle item) "Unknown";
     vs_channel_id := get_or (si_channelId item) EmptyString;
     vs_description := truncate200 (get_or (si_description item) EmptyString);
     vs_published_at := get_or (si_publishedAt item) EmptyString;
     vs_thumbnail := get_or (si_thumbnail item) EmptyString |}.

(** *** fetch_channel_videos *)

(** The first [if]: what the URL makes of [channel_id] and
    [channel_username]. *)
Definition read_channel_url (channel_id channel_username channel_url : option string)
    : option string * option string :=
  match channel_url with
  | Some (String _ _ as url) =>
      if contains "/channel/" url then
        (Some (first_piece "?" (first_piece "/" (last_piece "/channel/" url))),
         channel_username)
      else if contains "/@" url then
        (channel_id,
         Some (first_piece "?" (first_piece "/" (last_piece "/@" url))))
      else if contains "/c/" url || contains "/user/" url then
        (channel_id, Some (first_piece "?" (last_piece "/" url)))
      else (channel_id, channel_username)
  | _ => (channel_id, channel_username)
  end.

(** [if channel_username: channel_username = channel_username.lstrip('@')] *)
Definition clean_username (channel_username : option string) : option string :=
  match channel_username with
  | Some (String _ _ as u) => Some (lstrip_at u)
  | other => other
  end.

(** The lookup of the channel id of a username: the id found, or the line
    printed before the function returns its empty list. *)
Definition lookup_username (api : ChannelApi) (channel_username : string)
    : string + string :=
  match channels_list_forUsername api channel_username with
  | Raise e => inr ("Error looking up channel username: " ++ exn_str e)
  | Ok (Some id) => inl id
  | Ok None =>
      match search_channel api channel_username with
      | Raise e => inr ("Error looking up channel username: " ++ exn_str e)
      | Ok (Some id) => inl id
      | Ok None => inr ("Channel username '" ++ channel_username ++ "' not found")
      end
  end.

(** The body of the [while] loop, entered with [len(videos) < max_results]. *)
Fixpoint fetch_video_pages (max_results : Z) (response : VideoResponse)
    (videos : list VideoSummary) : list VideoSummary * option Exn :=
  match response with
  | VFail e => (videos, Some e)
  | VPage items nextPage =>
      let videos := (videos ++ map video_summary items)%list in
      match nextPage with
      | Some next =>
          if (Z.of_nat (List.length videos) <? max_results)%Z
          then fetch_video_pages max_results next videos
          else (videos, None)
      | None => (videos, None)
      end
  end.

(** The line printed by the two outer [except] clauses. *)
Definition channel_error_message (e : Exn) : string :=
  match e with
  | HttpError status _ =>
      if (status =? 403)%Z then "API quota exceeded or access denied"
      else "Error fetching channel videos: " ++ exn_str e
  | _ => "Unexpected error fetching channel videos: " ++ exn_str e
  end.

(** The search of the videos once the channel id is known. *)
Definition fetch_videos_of (api : ChannelApi) (channel_id : string) (max_results : Z)
    (order : string) : list VideoSummary * list string :=
  if (0 <? max_results)%Z then
    match fetch_video_pages max_results (search_videos api channel_id order) [] with
    | (videos, Some e) => (videos, [channel_error_message e])
    | (videos, None) => (videos, [])
    end
  else ([], []).

(** [fetch_channel_videos]: the returned list and the lines printed.  No
    exception leaves the function. *)
Definition fetch_channel_videos (api : ChannelApi)
    (channel_id channel_username channel_url : option string)
    (max_results : Z) (order : string) : list VideoSummary * list string :=
  let ids := read_channel_url channel_id channel_username channel_url in
  let channel_id := fst ids in
  let channel_username := clean_username (snd ids) in
  let resolved :=
    match channel_username with
    | Some (String _ _ as u) =>
        if truthy channel_id then inl channel_id
        else match lookup_username api u with
             | inl id => inl (Some id)
             | inr line => inr line
             end
    | _ => inl channel_id
    end in
  match resolved with
  | inr line => ([], [line])
  | inl (Some (String _ _ as id)) => fetch_videos_of api id max_results order
  | inl _ => ([], ["Either channel_id, channel_username, or channel_url must be provided"])
  end.

End Channel.

(** ** Predicates used to state further properties *)

Module MoreProps.

Import Monitor.

(** Every reply comes after the top-level comment it answers. *)
Definition parents_precede (comments : list Comment) : Prop :=
  forall before c after p,
    comments = (before ++ c :: after)%list ->
    parent_id c = Some p ->
    exists top, In top before /\ comment_id top = p /\ parent_id top = None.

(** Everything a pagination would serve if all its pages were requested,
    up to its end or its first failure. *)
Fixpoint all_comments (video_id : string) (response : Response) : list Comment :=
  match response with
  | RFail _ => []
  | RPage items nextPage =>
      (flat_map (thread_comments video_id) items
       ++ match nextPage with
          | Some next => all_comments video_id next
          | None => []
          end)%list
  end.


(** The three UNIQUE constraints of the schema hold in a store. *)
Definition constraints_hold (s : Store) : Prop :=
  Props.unique_rows video_info_conflict (video_info_cache s) /\
  Props.unique_rows history_conflict (video_sentiment_history s) /\
  Props.unique_rows snapshot_conflict (comment_snapshots s).


End MoreProps.

(** ** Further concrete values used by the examples *)

Module MoreSamples.

Import Analyzer Monitor Samples.

Local Open Scope string_scope.



(** A video of a channel search. *)
Definition sample_search_item (video_id : string) : Channel.SearchItem :=
  {| Channel.si_videoId := video_id;
     Channel.si_title := Some "A talk";
     Channel.si_channelTitle := Some "Talks";
     Channel.si_channelId := Some "UCtalks";
     Channel.si_description := None;
     Channel.si_publishedAt := Some "2024-01-01T00:00:00Z";
     Channel.si_thumbnail := None |}.

(** An API that knows the legacy username ["talks"] and the handle
    ["talkshow"], fails on the username ["broken"], serves the videos of the
    channel ["UCtalks"] on two pages and fails on the second page of the
    channel ["UCshow"]. *)
Definition sample_channel_api : Channel.ChannelApi :=
  {| Channel.channels_list_forUsername := fun username =>
       if String.eqb username "talks" then Ok (Some "UCtalks")
       else if String.eqb username "broken" then Raise (OtherException "timed out")
       else Ok None;
     Channel.search_channel := fun username =>
       if String.eqb username "talkshow" then Ok (Some "UCshow")
       else Ok None;
     Channel.search_videos := fun channel_id order =>
       if String.eqb channel_id "UCtalks" then
         Channel.VPage [sample_search_item "a"; sample_search_item "b"]
           (Some (Channel.VPage [sample_search_item "c"] None))
       else if String.eqb channel_id "UCshow" then
         Channel.VPage [sample_search_item "d"]
           (Some (Channel.VFail (HttpError 403 "quotaExceeded")))
       else Channel.VPage [] None |}.

End MoreSamples.

(** * Verification *)

Import Analyzer Monitor Props Samples.

Local Open Scope string_scope.

(** ** Comparisons *)

Lemma Qltb_lt (x y : Q) : Qltb x y = true <-> x < y.
Proof.
  unfold Qltb. rewrite negb_true_iff. split.
  - intros H. apply Qnot_le_lt. intros Hle.
    apply Qle_bool_iff in Hle. congruence.
  - intros H. destruct (Qle_bool y x) eqn:E; [|reflexivity].
    apply Qle_bool_iff in E. exfalso. apply (Qlt_not_le _ _ H E).
Qed.

Lemma Qltb_ge (x y : Q) : Qltb x y = false <-> y <= x.
Proof.
  unfold Qltb. rewrite negb_false_iff. apply Qle_bool_iff.
Qed.

Lemma Qle_bool_gt (x y : Q) : Qle_bool x y = false <-> y < x.
Proof.
  rewrite <- Qltb_lt. unfold Qltb. rewrite negb_true_iff. reflexivity.
Qed.

Lemma pf_lt_iff (a b : pyfloat) : pf_lt a b = true <-> pf_Lt a b.
Proof.
  destruct a, b; simpl; try (split; [discriminate | contradiction]).
  apply Qltb_lt.
Qed.

(** ** The scorer *)

Ltac order_cases :=
  repeat match goal with
         | H : Qltb _ _ = true |- _ => apply Qltb_lt in H
         | H : Qltb _ _ = false |- _ => apply Qltb_ge in H
         | H : Qle_bool _ _ = true |- _ => apply Qle_bool_iff in H
         | H : Qle_bool _ _ = false |- _ => apply Qle_bool_gt in H
         end.

(** C7: with the thresholds of [config.py], [categorize_sentiment] sends
    every polarity to exactly one category: below -0.5 to Very Negative,
    [-0.5,-0.1) to Negative, [-0.1,0.1] to Neutral, (0.1,0.5] to Positive,
    above 0.5 to Very Positive; the four cut points fall in Negative,
    Neutral, Neutral and Positive. *)
Theorem categorize_sentiment_partition (p : Q) :
  (categorize_sentiment p None None = VeryNegative <-> p < - (1 # 2)) /\
  (categorize_sentiment p None None = Negative <-> - (1 # 2) <= p /\ p < - (1 # 10)) /\
  (categorize_sentiment p None None = Neutral <-> - (1 # 10) <= p /\ p <= 1 # 10) /\
  (categorize_sentiment p None None = Positive <-> 1 # 10 < p /\ p <= 1 # 2) /\
  (categorize_sentiment p None None = VeryPositive <-> 1 # 2 < p) /\
  categorize_sentiment (- (1 # 2)) None None = Negative /\
  categorize_sentiment (- (1 # 10)) None None = Neutral /\
  categorize_sentiment (1 # 10) None None = Neutral /\
  categorize_sentiment (1 # 2) None None = Positive.
Proof.
  unfold categorize_sentiment, SENTIMENT_THRESHOLD_POSITIVE, SENTIMENT_THRESHOLD_NEGATIVE.
  repeat split; try reflexivity;
    destruct (Qltb p (- (1 # 2))) eqn:E1;
    destruct (Qltb p (- (1 # 10))) eqn:E2;
    destruct (Qle_bool p (1 # 10)) eqn:E3;
    destruct (Qle_bool p (1 # 2)) eqn:E4;
    order_cases; intros; try discriminate; try reflexivity;
    repeat match goal with H : _ /\ _ |- _ => destruct H end;
    try lra.
Qed.

(** C8: [calculate_sentiment] returns a number for every text: what
    TextBlob computes, and 0 when TextBlob raises; the number is in [-1,1]
    as soon as TextBlob's own polarities are. *)
Theorem calculate_sentiment_total_bounded (tb : TextBlob)
    (Hrange : forall s q, tb s = Ok q -> -1 <= q /\ q <= 1) (text : string) :
  (forall e, tb text = Raise e -> calculate_sentiment tb text = 0) /\
  (forall q, tb text = Ok q -> calculate_sentiment tb text = q) /\
  -1 <= calculate_sentiment tb text /\ calculate_sentiment tb text <= 1.
Proof.
  unfold calculate_sentiment.
  destruct (tb text) as [q|e] eqn:E.
  - destruct (Hrange _ _ E) as [Hlo Hhi].
    repeat split; try assumption; intros; congruence.
  - repeat split; intros; try congruence; lra.
Qed.

Lemma sample_textblob_range (s : string) (q : Q) :
  sample_textblob s = Ok q -> -1 <= q /\ q <= 1.
Proof.
  unfold sample_textblob.
  destruct (String.eqb s EmptyString); [discriminate|].
  destruct (String.eqb s "meh"); [intros H; inversion H; subst q; split; lra|].
  destruct (String.eqb s "awful"); intros H; inversion H; subst q; split; lra.
Qed.

Lemma calculate_sentiment_total_bounded_witness :
  (forall e, sample_textblob EmptyString = Raise e -> calculate_sentiment sample_textblob EmptyString = 0) /\
  (forall q, sample_textblob EmptyString = Ok q -> calculate_sentiment sample_textblob EmptyString = q) /\
  -1 <= calculate_sentiment sample_textblob EmptyString /\
  calculate_sentiment sample_textblob EmptyString <= 1.
Proof.
  apply (calculate_sentiment_total_bounded sample_textblob sample_textblob_range EmptyString).
Defined.

(** ** SQL statements *)

Section ConflictPolicies.

Context {A : Type}.
Variable conflict : A -> A -> bool.

Lemma insert_or_replace_key (e : A) (table : list A) :
  conflict e e = true ->
  filter (conflict e) (insert_or_replace conflict e table) = [e].
Proof.
  intros Hrefl. unfold insert_or_replace.
  rewrite filter_app. simpl. rewrite Hrefl.
  replace (filter (conflict e) (filter (fun r => negb (conflict e r)) table))
    with (@nil A); [reflexivity|].
  induction table as [|r rest IH]; simpl; [reflexivity|].
  destruct (conflict e r) eqn:E; simpl; [exact IH|].
  rewrite E. exact IH.
Qed.

Lemma insert_or_replace_others (e : A) (table : list A) :
  conflict e e = true ->
  filter (fun r => negb (conflict e r)) (insert_or_replace conflict e table)
  = filter (fun r => negb (conflict e r)) table.
Proof.
  intros Hrefl. unfold insert_or_replace.
  rewrite filter_app. simpl. rewrite Hrefl. simpl. rewrite app_nil_r.
  induction table as [|r rest IH]; simpl; [reflexivity|].
  destruct (conflict e r) eqn:E; simpl; [exact IH|].
  rewrite E. simpl. f_equal. exact IH.
Qed.

Lemma filter_ext_bool (f g : A -> bool) (l : list A) :
  (forall r, f r = g r) -> filter f l = filter g l.
Proof.
  intros H. induction l as [|r rest IH]; simpl; [reflexivity|].
  rewrite H, IH. reflexivity.
Qed.

(** Two writes under one key: one row for the key, the second one; the
    rows of the other keys are those of the table before both writes. *)
Lemma insert_or_replace_twice (e1 e2 : A) (table : list A) :
  conflict e1 e1 = true -> conflict e2 e2 = true ->
  (forall r, conflict e1 r = conflict e2 r) ->
  filter (conflict e2) (insert_or_replace conflict e2 (insert_or_replace conflict e1 table))
  = [e2]
  /\ filter (fun r => negb (conflict e2 r))
            (insert_or_replace conflict e2 (insert_or_replace conflict e1 table))
     = filter (fun r => negb (conflict e2 r)) table.
Proof.
  intros H1 H2 Hkey. split.
  - apply insert_or_replace_key. exact H2.
  - rewrite insert_or_replace_others by exact H2.
    assert (forall l, filter (fun r => negb (conflict e2 r)) l
                      = filter (fun r => negb (conflict e1 r)) l) as Hsame
      by (intros l; apply filter_ext_bool; intros r; rewrite Hkey; reflexivity).
    rewrite !Hsame.
    apply insert_or_replace_others. exact H1.
Qed.

Lemma insert_or_ignore_keeps (f : A -> bool) (row : A) (table : list A) :
  existsb f table = true -> existsb f (insert_or_ignore conflict row table) = true.
Proof.
  intros H. unfold insert_or_ignore.
  destruct (existsb (conflict row) table); [exact H|].
  rewrite existsb_app, H. reflexivity.
Qed.

Lemma insert_or_ignore_present (row : A) (table : list A) :
  conflict row row = true ->
  existsb (conflict row) (insert_or_ignore conflict row table) = true.
Proof.
  intros Hrefl. unfold insert_or_ignore.
  destruct (existsb (conflict row) table) eqn:E; [exact E|].
  rewrite existsb_app. simpl. rewrite Hrefl, orb_true_r. reflexivity.
Qed.

Lemma insert_or_ignore_noop (row : A) (table : list A) :
  existsb (conflict row) table = true -> insert_or_ignore conflict row table = table.
Proof.
  intros H. unfold insert_or_ignore. rewrite H. reflexivity.
Qed.

Lemma unique_rows_snoc (row : A) (table : list A) :
  unique_rows conflict table ->
  (forall r, In r table -> conflict r row = false) ->
  unique_rows conflict (table ++ [row]).
Proof.
  induction table as [|r rest IH]; simpl; intros Hu Hnew.
  - split; [intros r' []|exact I].
  - destruct Hu as [Hr Hrest]. split.
    + intros r' Hin. apply in_app_or in Hin. destruct Hin as [Hin|[<-|[]]].
      * apply Hr. exact Hin.
      * apply Hnew. left. reflexivity.
    + apply IH; [exact Hrest|]. intros r' Hin. apply Hnew. right. exact Hin.
Qed.

Lemma insert_or_ignore_unique (row : A) (table : list A) :
  (forall a b, conflict a b = conflict b a) ->
  unique_rows conflict table ->
  unique_rows conflict (insert_or_ignore conflict row table).
Proof.
  intros Hsym Hu. unfold insert_or_ignore.
  destruct (existsb (conflict row) table) eqn:E; [exact Hu|].
  apply unique_rows_snoc; [exact Hu|].
  intros r Hin. rewrite Hsym.
  destruct (conflict row r) eqn:Ec; [|reflexivity].
  assert (existsb (conflict row) table = true) as Hex
    by (apply existsb_exists; exists r; split; assumption).
  congruence.
Qed.

End ConflictPolicies.

(** ** The snapshot store *)

Lemma history_conflict_refl (e : HistoryRow) : history_conflict e e = true.
Proof.
  unfold history_conflict. rewrite String.eqb_refl, Z.eqb_refl. reflexivity.
Qed.

Lemma snapshot_conflict_refl (r : SnapshotRow) : snapshot_conflict r r = true.
Proof.
  unfold snapshot_conflict. rewrite !String.eqb_refl, Z.eqb_refl. reflexivity.
Qed.

Lemma snapshot_conflict_sym (a b : SnapshotRow) :
  snapshot_conflict a b = snapshot_conflict b a.
Proof.
  unfold snapshot_conflict.
  rewrite (String.eqb_sym (s_video_id a)), (String.eqb_sym (s_comment_id a)),
          (Z.eqb_sym (s_timestamp a)).
  reflexivity.
Qed.

(** C5: two writes of a history entry under one (video_id, timestamp)
    leave exactly one row for that key, the row of the second write, and
    leave the rows of every other key as they were; the statement is a
    total function of the table, so a conflict cannot make it fail.  The
    same holds for the history written by two runs of the statements of
    [save_snapshot] that read the same timestamp, and [save_snapshot]
    returns normally on a store that already holds the key it writes. *)
Theorem append_history_last_write_wins
    (table : list HistoryRow) (video_id : string) (timestamp : Z)
    (avg1 avg2 : pyfloat) (pos1 neg1 neu1 tot1 pos2 neg2 neu2 tot2 : Z)
    (df1 df2 : DataFrame) (s : Store) :
  let e1 := {| h_video_id := video_id; h_timestamp := timestamp;
               h_avg_sentiment := avg1; h_positive_count := pos1;
               h_negative_count := neg1; h_neutral_count := neu1;
               h_total_comments := tot1 |} in
  let e2 := {| h_video_id := video_id; h_timestamp := timestamp;
               h_avg_sentiment := avg2; h_positive_count := pos2;
               h_negative_count := neg2; h_neutral_count := neu2;
               h_total_comments := tot2 |} in
  let same_key := fun r => String.eqb video_id (h_video_id r)
                           && Z.eqb timestamp (h_timestamp r) in
  let table2 := append_history e2 (append_history e1 table) in
  let s2 := save_snapshot_at timestamp video_id df2
              (save_snapshot_at timestamp video_id df1 s) in
  filter same_key table2 = [e2] /\
  List.length (filter same_key table2) = 1%nat /\
  filter (fun r => negb (same_key r)) table2 = filter (fun r => negb (same_key r)) table /\
  filter same_key (video_sentiment_history s2) = [history_row video_id timestamp df2] /\
  filter (fun r => negb (same_key r)) (video_sentiment_history s2)
  = filter (fun r => negb (same_key r)) (video_sentiment_history s) /\
  (forall row rows,
     save_snapshot video_id (row :: rows)
       {| store := save_snapshot_at timestamp video_id df1 s;
          clock := timestamp; db_faults := [] |}
     = (Ok tt,
        {| store := save_snapshot_at timestamp video_id (row :: rows)
                      (save_snapshot_at timestamp video_id df1 s);
           clock := (timestamp + 1)%Z; db_faults := [] |})).
Proof.
  intros e1 e2 same_key table2 s2.
  assert (forall a b c d e a' b' c' d' e' t,
            let x1 := {| h_video_id := video_id; h_timestamp := timestamp;
                         h_avg_sentiment := a; h_positive_count := b;
                         h_negative_count := c; h_neutral_count := d;
                         h_total_comments := e |} in
            let x2 := {| h_video_id := video_id; h_timestamp := timestamp;
                         h_avg_sentiment := a'; h_positive_count := b';
                         h_negative_count := c'; h_neutral_count := d';
                         h_total_comments := e' |} in
            filter same_key (append_history x2 (append_history x1 t)) = [x2] /\
            filter (fun r => negb (same_key r)) (append_history x2 (append_history x1 t))
            = filter (fun r => negb (same_key r)) t) as Hgen.
  { intros a b c d e a' b' c' d' e' t x1 x2.
    apply (insert_or_replace_twice history_conflict x1 x2 t);
      [apply history_conflict_refl | apply history_conflict_refl | reflexivity]. }
  destruct (Hgen avg1 pos1 neg1 neu1 tot1 avg2 pos2 neg2 neu2 tot2 table) as [Hk Ho].
  subst e1 e2 table2 s2. cbv zeta in Hk, Ho.
  split; [exact Hk|]. split; [rewrite Hk; reflexivity|].
  split; [exact Ho|].
  split; [|split; [|reflexivity]];
    unfold save_snapshot_at, history_row; simpl; apply Hgen.
Qed.

Lemma append_comment_snapshots_keeps (f : SnapshotRow -> bool) (video_id : string)
    (timestamp : Z) (df : DataFrame) (table : list SnapshotRow) :
  existsb f table = true ->
  existsb f (append_comment_snapshots video_id timestamp df table) = true.
Proof.
  unfold append_comment_snapshots. revert table.
  induction df as [|row rest IH]; simpl; intros table H; [exact H|].
  apply IH. apply insert_or_ignore_keeps. exact H.
Qed.

Lemma append_comment_snapshots_present (video_id : string) (timestamp : Z)
    (df : DataFrame) (table : list SnapshotRow) (row : Row) :
  In row df ->
  existsb (snapshot_conflict (snapshot_row video_id timestamp row))
          (append_comment_snapshots video_id timestamp df table) = true.
Proof.
  revert table. induction df as [|r rest IH]; simpl; intros table Hin; [contradiction|].
  destruct Hin as [->|Hin].
  - apply (append_comment_snapshots_keeps _ video_id timestamp rest).
    apply insert_or_ignore_present. apply snapshot_conflict_refl.
  - apply (IH _ Hin).
Qed.

Lemma append_comment_snapshots_noop (video_id : string) (timestamp : Z)
    (df : DataFrame) (table : list SnapshotRow) :
  (forall row, In row df ->
     existsb (snapshot_conflict (snapshot_row video_id timestamp row)) table = true) ->
  append_comment_snapshots video_id timestamp df table = table.
Proof.
  unfold append_comment_snapshots.
  induction df as [|r rest IH]; simpl; intros H; [reflexivity|].
  rewrite insert_or_ignore_noop by (apply H; left; reflexivity).
  apply IH. intros row Hin. apply H. right. exact Hin.
Qed.

Lemma append_comment_snapshots_unique (video_id : string) (timestamp : Z)
    (df : DataFrame) (table : list SnapshotRow) :
  unique_rows snapshot_conflict table ->
  unique_rows snapshot_conflict (append_comment_snapshots video_id timestamp df table).
Proof.
  unfold append_comment_snapshots. revert table.
  induction df as [|r rest IH]; simpl; intros table H; [exact H|].
  apply IH. apply insert_or_ignore_unique; [apply snapshot_conflict_sym|exact H].
Qed.

(** C6: persisting a frame whose (video_id, comment_id, timestamp) keys
    were all persisted by a previous call leaves the comment_snapshots table
    as it was, row for row, so its row count does not change; a table
    without duplicate keys stays without duplicate keys.  The statements
    are total functions of the table: a conflict cannot make them fail, and
    [save_snapshot] returns normally on a store that already holds the
    keys it writes. *)
Theorem append_comment_snapshots_idempotent
    (video_id : string) (timestamp : Z) (df df' : DataFrame) (table : list SnapshotRow)
    (Hkeys : forall row', In row' df' ->
               exists row, In row df /\
                 comment_id (row_comment row) = comment_id (row_comment row')) :
  let table1 := append_comment_snapshots video_id timestamp df table in
  append_comment_snapshots video_id timestamp df' table1 = table1 /\
  List.length (append_comment_snapshots video_id timestamp df' table1) = List.length table1 /\
  append_comment_snapshots video_id timestamp df table1 = table1 /\
  (unique_rows snapshot_conflict table -> unique_rows snapshot_conflict table1) /\
  comment_snapshots (save_snapshot_at timestamp video_id df'
                       (save_snapshot_at timestamp video_id df
                          {| video_info_cache := []; video_sentiment_history := [];
                             comment_snapshots := table; alerts := [] |}))
  = table1 /\
  (forall s row rows,
     fst (save_snapshot video_id (row :: rows)
            {| store := save_snapshot_at timestamp video_id (row :: rows) s;
               clock := timestamp; db_faults := [] |})
     = Ok tt).
Proof.
  intros table1.
  assert (append_comment_snapshots video_id timestamp df' table1 = table1) as Hsecond.
  { apply append_comment_snapshots_noop. intros row' Hin.
    destruct (Hkeys row' Hin) as [row [Hrow Hid]].
    pose proof (append_comment_snapshots_present video_id timestamp df table row Hrow) as Hp.
    fold table1 in Hp.
    replace (snapshot_conflict (snapshot_row video_id timestamp row'))
      with (snapshot_conflict (snapshot_row video_id timestamp row)); [exact Hp|].
    unfold snapshot_conflict, snapshot_row; simpl. rewrite Hid. reflexivity. }
  split; [exact Hsecond|]. split; [rewrite Hsecond; reflexivity|].
  split.
  - apply append_comment_snapshots_noop. intros row Hin.
    apply append_comment_snapshots_present. exact Hin.
  - split; [apply append_comment_snapshots_unique|].
    split; [simpl; exact Hsecond|reflexivity].
Qed.

Lemma append_comment_snapshots_idempotent_witness :
  append_comment_snapshots "v1" 7 sample_frame
    (append_comment_snapshots "v1" 7 sample_frame [])
  = append_comment_snapshots "v1" 7 sample_frame [].
Proof.
  apply (append_comment_snapshots_idempotent "v1" 7 sample_frame sample_frame []).
  intros row' Hin. exists row'. split; [exact Hin|reflexivity].
Defined.



(** ** The alert evaluator *)

Lemma in_alerts_triggered (previous : option pyfloat) (current : pyfloat)
    (th : Thresholds) (a : AlertDict) :
  In a (alerts_triggered previous current th) ->
  match al_type a with
  | negative_threshold =>
      pf_lt current (th_negative_threshold th) = true /\ al_value a = current
  | positive_threshold =>
      pf_gt current (th_positive_threshold th) = true /\ al_value a = current
  | sentiment_drop =>
      exists p, previous = Some p /\
        pf_lt (pf_sub current p) (pf_neg (th_drop_threshold th)) = true /\
        al_value a = pf_sub current p
  | sentiment_rise =>
      exists p, previous = Some p /\
        pf_gt (pf_sub current p) (th_rise_threshold th) = true /\
        al_value a = pf_sub current p
  end.
Proof.
  unfold alerts_triggered. rewrite !in_app_iff.
  intros [H|[H|H]].
  - destruct (pf_lt current (th_negative_threshold th)) eqn:E; [|contradiction].
    destruct H as [<-|[]]. simpl. split; reflexivity.
  - destruct (pf_gt current (th_positive_threshold th)) eqn:E; [|contradiction].
    destruct H as [<-|[]]. simpl. split; reflexivity.
  - destruct previous as [p|]; [|contradiction].
    apply in_app_iff in H. destruct H as [H|H].
    + destruct (pf_lt (pf_sub current p) (pf_neg (th_drop_threshold th))) eqn:E;
        [|contradiction].
      destruct H as [<-|[]]. simpl. exists p. repeat split. exact E.
    + destruct (pf_gt (pf_sub current p) (th_rise_threshold th)) eqn:E; [|contradiction].
      destruct H as [<-|[]]. simpl. exists p. repeat split. exact E.
Qed.



(** What [check_sentiment_alerts] does when the connection opens. *)
Lemma check_sentiment_alerts_run (video_id : string) (current : pyfloat)
    (thresholds : option Thresholds) (w : World) :
  connects w ->
  check_sentiment_alerts video_id current thresholds w
  = (Ok (alerts_triggered (previous_sentiment_of video_id (store w)) current
                          (get_or thresholds default_thresholds)),
     {| store := save_alerts video_id (clock w)
                   (alerts_triggered (previous_sentiment_of video_id (store w)) current
                                     (get_or thresholds default_thresholds))
                   (store w);
        clock := (clock w + 1)%Z;
        db_faults := tl (db_faults w) |}).
Proof.
  unfold connects, check_sentiment_alerts, bind, connect, now, tick, query, commit, ret.
  destruct w as [s c fs]; simpl.
  destruct fs as [|[text|] fs]; simpl; intros H; [reflexivity|contradiction|reflexivity].
Qed.


(** The example of the drop: previous 0.4, current 0.1, default thresholds. *)
Lemma check_sentiment_alerts_drop_example (video_id : string) (w : World) (r : HistoryRow) :
  connects w ->
  select_latest_history video_id (video_sentiment_history (store w)) = Some r ->
  pf_eq (h_avg_sentiment r) (Fin (4 # 10)) ->
  exists a w',
    check_sentiment_alerts video_id (Fin (1 # 10)) None w = (Ok [a], w') /\
    al_type a = sentiment_drop /\ pf_eq (al_value a) (Fin (- (3 # 10))).
Proof.
  intros Hdb Hr Heq. rewrite (check_sentiment_alerts_run _ _ _ _ Hdb).
  unfold previous_sentiment_of. rewrite Hr.
  destruct (h_avg_sentiment r) as [q|]; [|contradiction]. simpl in Heq.
  unfold alerts_triggered, default_thresholds, get_or, pf_gt, pf_lt, pf_sub, pf_neg.
  cbn [th_negative_threshold th_positive_threshold th_drop_threshold th_rise_threshold].
  assert (Qltb (1 # 10) (- (3 # 10)) = false) as -> by reflexivity.
  assert (Qltb (1 # 2) (1 # 10) = false) as -> by reflexivity.
  assert (Qltb ((1 # 10) - q) (- (2 # 10)) = true) as -> by (apply Qltb_lt; lra).
  assert (Qltb (2 # 10) ((1 # 10) - q) = false) as -> by (apply Qltb_ge; lra).
  simpl. eexists. eexists. split; [reflexivity|]. simpl. split; [reflexivity|lra].
Qed.



(** ** Properties of the tables kept by every computation of the monitor *)

Section Preservation.

Variable I : Store -> Prop.

Lemma preserves_ret {A : Type} (a : A) : preserves I (ret a).
Proof. intros w H. exact H. Qed.

Lemma preserves_bind {A B : Type} (m : M A) (k : A -> M B) :
  preserves I m -> (forall a, preserves I (k a)) -> preserves I (bind m k).
Proof.
  intros Hm Hk w H. unfold bind.
  specialize (Hm w H). destruct (m w) as [[a|e] w1]; simpl in *.
  - apply Hk. exact Hm.
  - exact Hm.
Qed.

Lemma preserves_try_except {A : Type} (m : M A) (h : Exn -> M A) :
  preserves I m -> (forall e, preserves I (h e)) -> preserves I (try_except m h).
Proof.
  intros Hm Hh w H. unfold try_except.
  specialize (Hm w H). destruct (m w) as [[a|e] w1]; simpl in *.
  - exact Hm.
  - apply Hh. exact Hm.
Qed.

Lemma preserves_now : preserves I now.
Proof. intros w H. exact H. Qed.

Lemma preserves_api_time : preserves I api_time.
Proof. intros w H. exact H. Qed.

Lemma preserves_connect : preserves I connect.
Proof.
  intros w H. unfold connect. destruct (db_faults w) as [|[t|] fs]; exact H.
Qed.

Lemma preserves_query {A : Type} (f : Store -> A) : preserves I (query f).
Proof. intros w H. exact H. Qed.

Lemma preserves_commit (f : Store -> Store) :
  (forall s, I s -> I (f s)) -> preserves I (commit f).
Proof. intros Hf w H. simpl. apply Hf. exact H. Qed.

Hypothesis upsert_ok : forall info ts s, I s -> I (upsert_video_info info ts s).
Hypothesis snapshot_ok : forall ts video_id df s, I s -> I (save_snapshot_at ts video_id df s).
Hypothesis alerts_ok : forall video_id ts triggered s,
    I s -> I (save_alerts video_id ts triggered s).

Ltac preserve :=
  repeat first
    [ apply preserves_ret
    | apply preserves_now
    | apply preserves_api_time
    | apply preserves_connect
    | apply preserves_query
    | apply preserves_commit; intros; auto
    | apply preserves_bind; [|intros ?]
    | match goal with
      | |- preserves _ (match ?x with _ => _ end) => destruct x
      | |- preserves _ (if ?x then _ else _) => destruct x
      end ].

Lemma preserves_get_video_info (env : Env) (video_id : string) :
  preserves I (get_video_info env video_id).
Proof. unfold get_video_info. preserve. Qed.

Lemma preserves_fetch_video_comments (env : Env) (video_id : string) (max_results : Z) :
  preserves I (fetch_video_comments env video_id max_results).
Proof. unfold fetch_video_comments. preserve. Qed.

Lemma preserves_get_video_title (env : Env) (video_id : string) :
  preserves I (get_video_title env video_id).
Proof.
  unfold get_video_title, get_cached_video_info, cache_video_info.
  preserve; apply preserves_get_video_info.
Qed.

Lemma preserves_save_snapshot (video_id : string) (df : DataFrame) :
  preserves I (save_snapshot video_id df).
Proof. unfold save_snapshot. preserve. Qed.

Lemma preserves_check_sentiment_alerts (video_id : string) (current : pyfloat)
    (thresholds : option Thresholds) :
  preserves I (check_sentiment_alerts video_id current thresholds).
Proof. unfold check_sentiment_alerts. preserve. Qed.

Lemma preserves_monitor_video (env : Env) (video_id : string) (max_comments : Z)
    (check_alerts : bool) :
  preserves I (monitor_video env video_id max_comments check_alerts).
Proof.
  unfold monitor_video.
  apply preserves_bind; [apply preserves_get_video_title|intros title].
  apply preserves_bind; [apply preserves_now|intros printed_at].
  apply preserves_bind; [apply preserves_fetch_video_comments|intros comments].
  destruct comments as [|c cs]; [preserve|].
  destruct (df_empty _); [preserve|].
  apply preserves_bind; [apply preserves_save_snapshot|intros _].
  apply preserves_bind; [|intros alerts; preserve].
  destruct check_alerts; [apply preserves_check_sentiment_alerts|apply preserves_ret].
Qed.

Lemma preserves_monitor_loop (env : Env) (max_comments : Z) (check_alerts : bool)
    (video_ids : list string) :
  forall results, preserves I (monitor_loop env max_comments check_alerts video_ids results).
Proof.
  induction video_ids as [|v rest IH]; intros results; simpl.
  - apply preserves_ret.
  - apply preserves_bind; [|intros r; apply IH].
    unfold monitor_one. apply preserves_try_except.
    + apply preserves_monitor_video.
    + intros e. preserve.
Qed.

Lemma preserves_monitor_all_videos (env : Env) (video_ids : list string)
    (max_comments : Z) (check_alerts : bool) :
  preserves I (monitor_all_videos env video_ids max_comments check_alerts).
Proof.
  unfold monitor_all_videos. destruct video_ids as [|v rest].
  - apply preserves_ret.
  - apply preserves_monitor_loop.
Qed.

End Preservation.

(** ** The counts of the history table *)



(** ** The orchestrator *)

(** The steps of [monitor_video], one outcome at a time. *)
Lemma monitor_video_unfold (env : Env) (video_id : string) (max_comments : Z)
    (check_alerts : bool) (w : World) :
  monitor_video env video_id max_comments check_alerts w
  = match get_video_title env video_id w with
    | (Raise e, w1) => (Raise e, w1)
    | (Ok _, w1) =>
        let w2 := tick w1 in
        match fst (fetch_video_comments_at env video_id max_comments (clock w2)) with
        | [] => (Ok (plain_result video_id no_comments (clock w2)), tick w2)
        | c :: cs =>
            let df := analyze_comments_sentiment (textblob env) (c :: cs) in
            if df_empty df then
              (Ok (plain_result video_id analysis_failed (clock w2)), tick w2)
            else
              match save_snapshot video_id df w2 with
              | (Raise e, w3) => (Raise e, w3)
              | (Ok _, w3) =>
                  match (if check_alerts
                         then check_sentiment_alerts video_id
                                (series_mean (map Polarity df)) None
                         else ret []) w3 with
                  | (Raise e, w4) => (Raise e, w4)
                  | (Ok alerts, w4) =>
                      (Ok {| mr_video_id := video_id;
                             mr_status := success;
                             mr_timestamp := clock w4;
                             mr_error := None;
                             mr_metrics := Some (success_metrics df alerts) |},
                       tick w4)
                  end
              end
        end
    end.
Proof.
  unfold monitor_video, bind.
  destruct (get_video_title env video_id w) as [[title|e] w1]; [|reflexivity].
  unfold now at 1, fetch_video_comments, api_time, bind, ret. cbn zeta. cbn [fst snd].
  destruct (fst (fetch_video_comments_at env video_id max_comments (clock (tick w1))))
    as [|c cs]; [reflexivity|].
  destruct (df_empty (analyze_comments_sentiment (textblob env) (c :: cs)));
    [reflexivity|].
  destruct (save_snapshot video_id _ (tick w1)) as [[[]|e] w3]; [|reflexivity].
  destruct check_alerts.
  - destruct (check_sentiment_alerts video_id _ None w3) as [[alerts|e] w4]; reflexivity.
  - reflexivity.
Qed.

Lemma monitor_video_result_id (env : Env) (video_id : string) (max_comments : Z)
    (check_alerts : bool) (w w' : World) (r : MonitorResult) :
  monitor_video env video_id max_comments check_alerts w = (Ok r, w') ->
  mr_video_id r = video_id.
Proof.
  rewrite monitor_video_unfold.
  destruct (get_video_title env video_id w) as [[title|e] w1]; [|discriminate].
  cbv zeta.
  destruct (fst (fetch_video_comments_at _ _ _ _)) as [|c cs].
  - intros H. inversion H. reflexivity.
  - destruct (df_empty _).
    + intros H. inversion H. reflexivity.
    + destruct (save_snapshot _ _ _) as [[[]|e] w3]; [|discriminate].
      destruct check_alerts;
        [destruct (check_sentiment_alerts _ _ None w3) as [[alerts|e] w4];
           [|discriminate]
        |unfold ret];
        intros H; inversion H; reflexivity.
Qed.

(** One turn of the loop never raises: it reports what [monitor_video]
    returned, or the error entry built from what it raised. *)
Lemma monitor_one_run (env : Env) (max_comments : Z) (check_alerts : bool)
    (video_id : string) (w : World) :
  monitor_one env max_comments check_alerts video_id w
  = match monitor_video env video_id max_comments check_alerts w with
    | (Ok r, w1) => (Ok r, w1)
    | (Raise e, w1) => (Ok (error_result video_id e (clock w1)), tick w1)
    end.
Proof.
  unfold monitor_one, try_except.
  destruct (monitor_video env video_id max_comments check_alerts w) as [[r|e] w1];
    reflexivity.
Qed.

Lemma monitor_one_total (env : Env) (max_comments : Z) (check_alerts : bool)
    (video_id : string) (w : World) :
  exists r w', monitor_one env max_comments check_alerts video_id w = (Ok r, w')
               /\ mr_video_id r = video_id.
Proof.
  rewrite monitor_one_run.
  destruct (monitor_video env video_id max_comments check_alerts w) as [[r|e] w1] eqn:E.
  - exists r, w1. split; [reflexivity|]. apply (monitor_video_result_id _ _ _ _ _ _ _ E).
  - eexists. eexists. split; reflexivity.
Qed.

(** The loop appends to [results] one entry per video id, in order. *)
Lemma monitor_loop_appends (env : Env) (max_comments : Z) (check_alerts : bool)
    (video_ids : list string) :
  forall results w,
  exists rs w',
    monitor_loop env max_comments check_alerts video_ids results w
    = (Ok (results ++ rs)%list, w') /\
    monitor_loop env max_comments check_alerts video_ids [] w = (Ok rs, w') /\
    map mr_video_id rs = video_ids.
Proof.
  induction video_ids as [|v rest IH]; intros results w.
  - exists [], w. simpl. unfold ret. rewrite app_nil_r. repeat split.
  - destruct (monitor_one_total env max_comments check_alerts v w) as [r [w1 [Hr Hid]]].
    destruct (IH (results ++ [r])%list w1) as [rs [w' [Hacc [Hnil Hids]]]].
    destruct (IH [r] w1) as [rs1 [w1' [Hacc1 [Hnil1 _]]]].
    rewrite Hnil in Hnil1. inversion Hnil1; subst rs1 w1'.
    exists (r :: rs), w'. simpl. unfold bind. rewrite Hr.
    split; [|split].
    + rewrite Hacc. rewrite <- app_assoc. reflexivity.
    + exact Hacc1.
    + simpl. rewrite Hid, Hids. reflexivity.
Qed.

Lemma monitor_all_videos_loop (env : Env) (video_ids : list string) (max_comments : Z)
    (check_alerts : bool) (w : World) :
  monitor_all_videos env video_ids max_comments check_alerts w
  = monitor_loop env max_comments check_alerts video_ids [] w.
Proof. destruct video_ids; reflexivity. Qed.

Lemma monitor_loop_app (env : Env) (max_comments : Z) (check_alerts : bool)
    (xs ys : list string) :
  forall results w,
    monitor_loop env max_comments check_alerts (xs ++ ys) results w
    = bind (monitor_loop env max_comments check_alerts xs results)
           (fun rs => monitor_loop env max_comments check_alerts ys rs) w.
Proof.
  induction xs as [|x rest IH]; intros results w; simpl.
  - reflexivity.
  - unfold bind.
    destruct (monitor_one env max_comments check_alerts x w) as [[r|e] w1];
      [|reflexivity].
    rewrite IH. reflexivity.
Qed.

(** C3: [monitor_all_videos] returns, for every list of tracked ids, a
    list with one entry per id, in the order of the ids.  The entry of a
    video is the result [monitor_video] returned for it, or, when
    [monitor_video] raised, an entry of status error that carries the text
    of the exception; the videos after it are then processed from the world
    that video left, and reported in the same way. *)
Theorem monitor_all_videos_isolates_failures (env : Env) (max_comments : Z)
    (check_alerts : bool) :
  (forall video_ids w,
     exists results w',
       monitor_all_videos env video_ids max_comments check_alerts w = (Ok results, w') /\
       map mr_video_id results = video_ids /\
       List.length results = List.length video_ids) /\
  (forall before video_id after w,
     exists results_before w1 result w2 results_after w3,
       monitor_all_videos env before max_comments check_alerts w
       = (Ok results_before, w1) /\
       match monitor_video env video_id max_comments check_alerts w1 with
       | (Ok r, w0) => result = r /\ w2 = w0
       | (Raise e, w0) =>
           result = {| mr_video_id := video_id;
                       mr_status := error;
                       mr_timestamp := clock w0;
                       mr_error := Some (exn_str e);
                       mr_metrics := None |}
           /\ w2 = tick w0
       end /\
       mr_video_id result = video_id /\
       monitor_all_videos env after max_comments check_alerts w2
       = (Ok results_after, w3) /\
       monitor_all_videos env (before ++ video_id :: after) max_comments check_alerts w
       = (Ok (results_before ++ result :: results_after)%list, w3)).
Proof.
  split.
  - intros video_ids w. rewrite monitor_all_videos_loop.
    destruct (monitor_loop_appends env max_comments check_alerts video_ids [] w)
      as [rs [w' [_ [H Hids]]]].
    exists rs, w'. split; [exact H|]. split; [exact Hids|].
    rewrite <- Hids, length_map. reflexivity.
  - intros before video_id after w. rewrite !monitor_all_videos_loop.
    destruct (monitor_loop_appends env max_comments check_alerts before [] w)
      as [rs1 [w1 [_ [H1 _]]]].
    destruct (monitor_one_total env max_comments check_alerts video_id w1)
      as [r [w2 [Hr Hid]]].
    destruct (monitor_loop_appends env max_comments check_alerts after (rs1 ++ [r]) w2)
      as [rs3 [w3 [Hacc [H3 _]]]].
    exists rs1, w1, r, w2, rs3, w3.
    split; [exact H1|]. split; [|split; [exact Hid|split; [|]]].
    + rewrite monitor_one_run in Hr.
      destruct (monitor_video env video_id max_comments check_alerts w1) as [[r0|e] w0];
        inversion Hr; split; reflexivity.
    + rewrite ?monitor_all_videos_loop. exact H3.
    + rewrite ?monitor_all_videos_loop. rewrite monitor_loop_app.
      unfold bind at 1. rewrite H1.
      simpl. unfold bind. rewrite Hr. rewrite Hacc. rewrite <- app_assoc. reflexivity.
Qed.

(** ** The API client *)

Lemma fetch_video_comments_run (env : Env) (video_id : string) (max_results : Z)
    (w : World) :
  fetch_video_comments env video_id max_results w
  = (Ok (fst (fetch_video_comments_at env video_id max_results (clock w))), w).
Proof. reflexivity. Qed.

(** The three kinds of failure print three different lines. *)
Lemma fetch_error_message_kinds (video_id text1 text2 text3 text4 : string) (status : Z) :
  status <> 403%Z -> status <> 404%Z ->
  fetch_error_message video_id (HttpError 403 text1)
  <> fetch_error_message video_id (HttpError 404 text2) /\
  fetch_error_message video_id (HttpError 403 text1)
  <> fetch_error_message video_id (HttpError status text3) /\
  fetch_error_message video_id (HttpError 404 text2)
  <> fetch_error_message video_id (HttpError status text3) /\
  fetch_error_message video_id (HttpError 403 text1)
  <> fetch_error_message video_id (OtherException text4) /\
  fetch_error_message video_id (HttpError 404 text2)
  <> fetch_error_message video_id (OtherException text4).
Proof.
  intros H403 H404. unfold fetch_error_message.
  apply Z.eqb_neq in H403. apply Z.eqb_neq in H404. rewrite H403, H404.
  simpl. repeat split; discriminate.
Qed.

(** C2, as the code has it: a failing fetch never raises; it prints one
    line, different for HTTP 403, HTTP 404 and any other failure, and
    returns the comments collected before the failure.  The returned list
    carries no failure kind: when the first request fails the list is
    empty whatever the failure, as it is for an unknown video and for a
    video without comments. *)
Theorem fetch_video_comments_failure_is_printed (env : Env) (video_id : string)
    (max_results : Z) (t : Z) :
  (forall w, fetch_video_comments env video_id max_results w
             = (Ok (fst (fetch_video_comments_at env video_id max_results (clock w))), w)) /\
  (forall e, videos_list env video_id t = Raise e ->
     fetch_video_comments_at env video_id max_results t
     = ([], [fetch_error_message video_id e])) /\
  (forall item e collected,
     videos_list env video_id t = Ok (Some item) ->
     (0 < max_results)%Z ->
     fetch_pages video_id max_results (commentThreads_list env video_id t) []
     = (collected, Some e) ->
     fetch_video_comments_at env video_id max_results t
     = (collected, [fetch_error_message video_id e])) /\
  (forall item e,
     videos_list env video_id t = Ok (Some item) ->
     commentThreads_list env video_id t = RFail e ->
     fst (fetch_video_comments_at env video_id max_results t) = []) /\
  (forall item,
     videos_list env video_id t = Ok (Some item) ->
     commentThreads_list env video_id t = RPage [] None ->
     fetch_video_comments_at env video_id max_results t = ([], [])) /\
  (forall text1 text2 text3 text4 status,
     status <> 403%Z -> status <> 404%Z ->
     fetch_error_message video_id (HttpError 403 text1)
     <> fetch_error_message video_id (HttpError 404 text2) /\
     fetch_error_message video_id (HttpError 403 text1)
     <> fetch_error_message video_id (HttpError status text3) /\
     fetch_error_message video_id (HttpError 404 text2)
     <> fetch_error_message video_id (HttpError status text3) /\
     fetch_error_message video_id (HttpError 403 text1)
     <> fetch_error_message video_id (OtherException text4) /\
     fetch_error_message video_id (HttpError 404 text2)
     <> fetch_error_message video_id (OtherException text4)).
Proof.
  split; [intros w; apply fetch_video_comments_run|].
  unfold fetch_video_comments_at.
  split; [intros e He; rewrite He; reflexivity|].
  split; [intros item e collected Hv Hmax Hp; rewrite Hv;
          apply Z.ltb_lt in Hmax; rewrite Hmax, Hp; reflexivity|].
  split; [intros item e Hv Hc; rewrite Hv, Hc;
          destruct (0 <? max_results)%Z; reflexivity|].
  split; [intros item Hv Hc; rewrite Hv, Hc;
          destruct (0 <? max_results)%Z; reflexivity|].
  intros text1 text2 text3 text4 status. apply fetch_error_message_kinds.
Qed.

(** C2, as stated, fails: a fetch refused with HTTP 403, one refused with
    HTTP 404, one that hits a server error and one that succeeds on a video
    without comments all hand the same value to the caller and leave the
    same world. *)
Lemma fetch_failure_kinds_look_alike :
  fetch_video_comments sample_env "denied" 100 fresh_world = (Ok [], fresh_world) /\
  fetch_video_comments sample_env "gone" 100 fresh_world = (Ok [], fresh_world) /\
  fetch_video_comments sample_env "broken" 100 fresh_world = (Ok [], fresh_world) /\
  fetch_video_comments sample_env "quiet" 100 fresh_world = (Ok [], fresh_world) /\
  videos_list sample_env "denied" 0 = Raise (HttpError 403 "forbidden") /\
  videos_list sample_env "gone" 0 = Raise (HttpError 404 "no such video") /\
  videos_list sample_env "broken" 0 = Raise (HttpError 500 "backend error") /\
  fetch_video_comments_at sample_env "quiet" 100 0 = ([], []) /\
  (forall (A : Type) (observe : Result (list Comment) * World -> A),
     observe (fetch_video_comments sample_env "denied" 100 fresh_world)
     = observe (fetch_video_comments sample_env "gone" 100 fresh_world) /\
     observe (fetch_video_comments sample_env "gone" 100 fresh_world)
     = observe (fetch_video_comments sample_env "broken" 100 fresh_world) /\
     observe (fetch_video_comments sample_env "broken" 100 fresh_world)
     = observe (fetch_video_comments sample_env "quiet" 100 fresh_world)).
Proof. repeat split. Qed.

(** ** Cycles that persist nothing *)

(** [get_video_title] writes at most the cache row of its video, and only
    when the video is not in the cache yet and the API returns its info. *)
Lemma get_video_title_store (env : Env) (video_id : string) (w : World) :
  let w1 := snd (get_video_title env video_id w) in
  (clock w <= clock w1)%Z /\
  video_sentiment_history (store w1) = video_sentiment_history (store w) /\
  comment_snapshots (store w1) = comment_snapshots (store w) /\
  alerts (store w1) = alerts (store w) /\
  (select_video_info video_id (video_info_cache (store w)) <> None ->
   store w1 = store w) /\
  ((forall item, videos_list env video_id (clock w) <> Ok (Some item)) ->
   store w1 = store w) /\
  (video_info_cache (store w1) = video_info_cache (store w) \/
   exists info ts,
     vi_video_id info = video_id /\
     video_info_cache (store w1)
     = insert_or_replace video_info_conflict
         {| vc_info := info; vc_last_updated := ts |} (video_info_cache (store w))).
Proof.
  unfold get_video_title, get_cached_video_info, cache_video_info, get_video_info,
    bind, connect, query, commit, now, tick, api_time, ret.
  destruct w as [s c fs]. cbn [store clock db_faults].
  assert (forall fs0 : list (option string),
            let w1 := {| store := s; clock := c; db_faults := fs0 |} in
            (c <= clock w1)%Z /\
            video_sentiment_history (store w1) = video_sentiment_history s /\
            comment_snapshots (store w1) = comment_snapshots s /\
            alerts (store w1) = alerts s /\
            (select_video_info video_id (video_info_cache s) <> None -> store w1 = s) /\
            ((forall item, videos_list env video_id c <> Ok (Some item)) -> store w1 = s) /\
            (video_info_cache (store w1) = video_info_cache s \/
             exists info ts,
               vi_video_id info = video_id /\
               video_info_cache (store w1)
               = insert_or_replace video_info_conflict
                   {| vc_info := info; vc_last_updated := ts |} (video_info_cache s)))
    as Hsame.
  { intros fs0 w1. subst w1. cbn. repeat split; try lia. left. reflexivity. }
  assert (forall (info : VideoInfo) (fs0 : list (option string)),
            vi_video_id info = video_id ->
            select_video_info video_id (video_info_cache s) = None ->
            (exists item, videos_list env video_id c = Ok (Some item)) ->
            let w1 := {| store := upsert_video_info info c s;
                         clock := (c + 1)%Z; db_faults := fs0 |} in
            (c <= clock w1)%Z /\
            video_sentiment_history (store w1) = video_sentiment_history s /\
            comment_snapshots (store w1) = comment_snapshots s /\
            alerts (store w1) = alerts s /\
            (select_video_info video_id (video_info_cache s) <> None -> store w1 = s) /\
            ((forall item, videos_list env video_id c <> Ok (Some item)) -> store w1 = s) /\
            (video_info_cache (store w1) = video_info_cache s \/
             exists info' ts,
               vi_video_id info' = video_id /\
               video_info_cache (store w1)
               = insert_or_replace video_info_conflict
                   {| vc_info := info'; vc_last_updated := ts |} (video_info_cache s)))
    as Hcached.
  { intros info fs0 Hid Hsel [item Hitem] w1. subst w1. cbn.
    split; [lia|]. split; [reflexivity|]. split; [reflexivity|].
    split; [reflexivity|]. split; [congruence|].
    split; [intros Hno; exfalso; apply (Hno item); exact Hitem|].
    right. exists info, c. split; [exact Hid|reflexivity]. }
  destruct fs as [|[text|] fs]; cbn.
  - destruct (select_video_info video_id (video_info_cache s)) as [row|] eqn:Hsel; cbn;
      [apply (Hsame [])|].
    destruct (videos_list env video_id c) as [[item|]|e] eqn:Ev; cbn;
      [|apply (Hsame [])|apply (Hsame [])].
    apply (Hcached _ []); [reflexivity|reflexivity|exists item; reflexivity].
  - apply (Hsame []).
  - destruct (select_video_info video_id (video_info_cache s)) as [row|] eqn:Hsel; cbn;
      [apply (Hsame [])|].
    destruct (videos_list env video_id c) as [[item|]|e] eqn:Ev; cbn;
      [|apply (Hsame [])|apply (Hsame [])].
    destruct fs as [|[text|] fs]; cbn;
      [apply (Hcached _ []); [reflexivity|reflexivity|exists item; reflexivity]
      |apply (Hsame [])
      |apply (Hcached _ []); [reflexivity|reflexivity|exists item; reflexivity]].
Qed.

Lemma get_video_title_ok (env : Env) (video_id : string) (w : World) :
  db_faults w = [] ->
  exists title w1, get_video_title env video_id w = (Ok title, w1) /\ db_faults w1 = [].
Proof.
  unfold get_video_title, get_cached_video_info, cache_video_info, get_video_info,
    bind, connect, query, commit, now, tick, api_time, ret.
  destruct w as [s c fs]. cbn [store clock db_faults]. intros ->. cbn.
  destruct (select_video_info video_id (video_info_cache s)) as [row|];
    cbn; [eexists; eexists; split; reflexivity|].
  destruct (videos_list env video_id c) as [[item|]|e];
    cbn; eexists; eexists; split; reflexivity.
Qed.

Lemma save_snapshot_writes_numbers (video_id : string) (df : DataFrame) (w : World) :
  Forall (fun r => In r (video_sentiment_history (store w))
                   \/ exists q, h_avg_sentiment r = Fin q)
         (video_sentiment_history (store (snd (save_snapshot video_id df w)))).
Proof.
  assert (Forall (fun r => In r (video_sentiment_history (store w))
                           \/ exists q, h_avg_sentiment r = Fin q)
                 (video_sentiment_history (store w))) as Hsame
    by (apply Forall_forall; intros r Hin; left; exact Hin).
  unfold save_snapshot. destruct df as [|row rows]; [exact Hsame|].
  cbn [df_empty]. unfold bind, connect, now, tick, commit.
  destruct w as [s c fs]. cbn [store clock db_faults] in *.
  assert (Forall (fun r => In r (video_sentiment_history s)
                           \/ exists q, h_avg_sentiment r = Fin q)
                 (append_history (history_row video_id c (row :: rows))
                                 (video_sentiment_history s))) as Hnew.
  { unfold append_history, insert_or_replace. apply Forall_app. split.
    - apply Forall_forall. intros r Hin. left. apply filter_In in Hin. apply Hin.
    - constructor; [|constructor]. right. unfold history_row, series_mean.
      cbn. eexists. reflexivity. }
  destruct fs as [|[text|] fs]; cbn [store clock db_faults fst snd save_snapshot_at
                                     video_sentiment_history];
    assumption.
Qed.

(** C10, as the code has it: [save_snapshot] on an empty frame returns
    without touching the world, and every history row it writes for a
    non-empty frame carries a number, never NaN.  A cycle of
    [monitor_video] that ends with status no_comments or analysis_failed
    leaves the history, comment_snapshots and alerts tables as they were;
    it leaves the whole store as it was when the video's info is already in
    video_info_cache or the API does not return it, and otherwise changes at
    most video_info_cache, by the row [get_video_title] caches for that video.  When the database opens
    and the fetch finds nothing, the cycle does end with no_comments. *)
Theorem empty_cycle_frame (env : Env) (video_id : string) (max_comments : Z)
    (check_alerts : bool) (w : World) :
  save_snapshot video_id [] w = (Ok tt, w) /\
  (forall df,
     Forall (fun r => In r (video_sentiment_history (store w))
                      \/ exists q, h_avg_sentiment r = Fin q)
            (video_sentiment_history (store (snd (save_snapshot video_id df w))))) /\
  (forall r w',
     monitor_video env video_id max_comments check_alerts w = (Ok r, w') ->
     mr_status r = no_comments \/ mr_status r = analysis_failed ->
     video_sentiment_history (store w') = video_sentiment_history (store w) /\
     comment_snapshots (store w') = comment_snapshots (store w) /\
     alerts (store w') = alerts (store w) /\
     (select_video_info video_id (video_info_cache (store w)) <> None ->
      store w' = store w) /\
     ((forall item, videos_list env video_id (clock w) <> Ok (Some item)) ->
      store w' = store w) /\
     (video_info_cache (store w') = video_info_cache (store w) \/
      exists info ts,
        vi_video_id info = video_id /\
        video_info_cache (store w')
        = insert_or_replace video_info_conflict
            {| vc_info := info; vc_last_updated := ts |} (video_info_cache (store w)))) /\
  (db_faults w = [] ->
   (forall t, fst (fetch_video_comments_at env video_id max_comments t) = []) ->
   exists ts w',
     monitor_video env video_id max_comments check_alerts w
     = (Ok (plain_result video_id no_comments ts), w')).
Proof.
  split; [reflexivity|]. split; [intros df; apply save_snapshot_writes_numbers|].
  split.
  - intros r w'. rewrite monitor_video_unfold.
    pose proof (get_video_title_store env video_id w) as Ht.
    destruct (get_video_title env video_id w) as [[title|e] w1]; [|discriminate].
    cbv zeta in Ht |- *. cbn [snd] in Ht.
    destruct Ht as [_ [Hh [Hs [Ha [Hc [Hn Hv]]]]]].
    destruct (fst (fetch_video_comments_at _ _ _ _)) as [|c cs].
    + intros H _. inversion H; subst r w'. cbn [tick store].
      repeat split; assumption.
    + destruct (df_empty _).
      * intros H _. inversion H; subst r w'. cbn [tick store].
        repeat split; assumption.
      * destruct (save_snapshot _ _ _) as [[[]|e] w3]; [|discriminate].
        destruct check_alerts;
          [destruct (check_sentiment_alerts _ _ None w3) as [[al|e] w4];
             [|discriminate]
          |unfold ret];
          intros H [Hst|Hst]; inversion H; subst r; discriminate.
  - intros Hdb Hempty. rewrite monitor_video_unfold.
    destruct (get_video_title_ok env video_id w Hdb) as [title [w1 [Ht _]]].
    rewrite Ht. cbv zeta. rewrite Hempty. eexists. eexists. reflexivity.
Qed.

(** C10, as stated, fails: on a new database, a cycle on a video that has
    no comments ends with status no_comments and has added the video's row
    to video_info_cache. *)
Lemma empty_cycle_writes_video_info_cache :
  exists r w',
    monitor_video sample_env "quiet" 100 true fresh_world = (Ok r, w') /\
    mr_status r = no_comments /\
    video_info_cache (store fresh_world) = [] /\
    List.length (video_info_cache (store w')) = 1%nat /\
    store w' <> store fresh_world.
Proof.
  eexists. eexists. split; [reflexivity|]. cbn.
  repeat split. discriminate.
Qed.

(** ** The baseline of the delta check inside a cycle *)

(** A row written with a timestamp that no stored row of the video exceeds
    is the one the SELECT of [check_sentiment_alerts] returns afterwards. *)
Lemma select_latest_after_append (table : list HistoryRow) (e : HistoryRow) :
  (forall r, In r table -> h_video_id r = h_video_id e ->
             (h_timestamp r <= h_timestamp e)%Z) ->
  select_latest_history (h_video_id e) (append_history e table) = Some e.
Proof.
  unfold append_history, insert_or_replace.
  induction table as [|a rest IH]; intros H.
  - simpl. rewrite String.eqb_refl. reflexivity.
  - assert (select_latest_history (h_video_id e)
              (filter (fun r => negb (history_conflict e r)) rest ++ [e]) = Some e) as IH'
      by (apply IH; intros r Hin; apply H; right; exact Hin).
    cbn [filter]. destruct (history_conflict e a) eqn:Ec; cbn [negb]; [exact IH'|].
    cbn [app select_latest_history].
    destruct (String.eqb (h_video_id a) (h_video_id e)) eqn:Ev; [|exact IH'].
    rewrite IH'. apply String.eqb_eq in Ev.
    assert (h_timestamp a <= h_timestamp e)%Z as Hle by (apply H; [left; reflexivity|exact Ev]).
    unfold history_conflict in Ec. rewrite Ev, String.eqb_refl in Ec. cbn [andb] in Ec.
    apply Z.eqb_neq in Ec.
    assert ((h_timestamp a <? h_timestamp e)%Z = true) as -> by (apply Z.ltb_lt; lia).
    reflexivity.
Qed.

(** After the statements of [save_snapshot], the value that
    [check_sentiment_alerts] takes for previous sentiment is the average
    that [save_snapshot] has just written. *)
Lemma previous_sentiment_after_save (video_id : string) (timestamp : Z)
    (row : Row) (rows : DataFrame) (s : Store) :
  (forall r, In r (video_sentiment_history s) -> h_video_id r = video_id ->
             (h_timestamp r <= timestamp)%Z) ->
  previous_sentiment_of video_id (save_snapshot_at timestamp video_id (row :: rows) s)
  = Some (series_mean (map Polarity (row :: rows))).
Proof.
  intros H. unfold previous_sentiment_of, save_snapshot_at.
  cbn [video_sentiment_history].
  pose proof (select_latest_after_append (video_sentiment_history s)
                (history_row video_id timestamp (row :: rows))) as Hsel.
  cbn [history_row h_video_id h_timestamp] in Hsel.
  rewrite Hsel by exact H. reflexivity.
Qed.

(** A value compared with itself triggers neither a drop nor a rise. *)
Lemma alerts_triggered_same_value (q : Q) (a : AlertDict) :
  In a (alerts_triggered (Some (Fin q)) (Fin q) default_thresholds) ->
  al_type a <> sentiment_drop /\ al_type a <> sentiment_rise.
Proof.
  intros Hin. apply in_alerts_triggered in Hin.
  split; intros Ht; rewrite Ht in Hin; destruct Hin as [p [Hp [Hcmp _]]];
    inversion Hp; subst p; cbn in Hcmp.
  - apply Qltb_lt in Hcmp. lra.
  - apply Qltb_lt in Hcmp. lra.
Qed.

(** What [save_snapshot] does on a frame with at least one row. *)
Lemma save_snapshot_run (video_id : string) (row : Row) (rows : DataFrame) (w : World) :
  match save_snapshot video_id (row :: rows) w with
  | (Ok _, w') =>
      w' = {| store := save_snapshot_at (clock w) video_id (row :: rows) (store w);
              clock := (clock w + 1)%Z;
              db_faults := tl (db_faults w) |}
  | (Raise _, w') => store w' = store w
  end.
Proof.
  unfold save_snapshot. cbn [df_empty]. unfold bind, connect, now, tick, commit.
  destruct w as [s c fs]. cbn [store clock db_faults].
  destruct fs as [|[text|] fs]; reflexivity.
Qed.

(** Inside a cycle the delta check has its own entry as baseline: when no
    stored timestamp is ahead of the clock, the alerts a cycle of
    [monitor_video] adds are never sentiment_drop or sentiment_rise. *)
Lemma monitor_video_delta_never_fires (env : Env) (video_id : string)
    (max_comments : Z) (w w' : World) (r : MonitorResult) :
  (forall h, In h (video_sentiment_history (store w)) -> (h_timestamp h < clock w)%Z) ->
  monitor_video env video_id max_comments true w = (Ok r, w') ->
  exists added,
    alerts (store w') = (alerts (store w) ++ added)%list /\
    forall a, In a added ->
              a_alert_type a <> sentiment_drop /\ a_alert_type a <> sentiment_rise.
Proof.
  intros Hpast. rewrite monitor_video_unfold.
  pose proof (get_video_title_store env video_id w) as Ht.
  destruct (get_video_title env video_id w) as [[title|e] w1]; [|discriminate].
  cbv zeta in Ht |- *. cbn [snd] in Ht.
  destruct Ht as [Hclock [Hh [_ [Ha _]]]].
  destruct (fst (fetch_video_comments_at _ _ _ _)) as [|c cs].
  { intros H. inversion H; subst r w'. exists []. cbn [tick store].
    rewrite app_nil_r. split; [exact Ha|]. intros a []. }
  cbn [analyze_comments_sentiment analyze_sentiment_batch add_sentiment_categories
       map df_empty].
  match goal with
  | |- context [save_snapshot video_id (?x :: ?xs) (tick w1)] =>
      set (row := x); set (rows := xs)
  end.
  pose proof (save_snapshot_run video_id row rows (tick w1)) as Hsave.
  destruct (save_snapshot video_id (row :: rows) (tick w1)) as [[[]|e] w3];
    [|discriminate].
  assert (connects w3 \/ ~ connects w3) as [Hc|Hc]
    by (unfold connects; destruct (db_faults w3) as [|[t|] fs]; auto).
  - rewrite (check_sentiment_alerts_run _ _ _ _ Hc).
    intros H. inversion H; subst r w'. cbn [tick store save_alerts alerts].
    eexists. split.
    + rewrite Hsave. cbn [store save_snapshot_at alerts tick]. rewrite Ha. reflexivity.
    + intros a Hin. apply in_map_iff in Hin. destruct Hin as [al [<- Hal]].
      cbn [alert_row a_alert_type].
      rewrite ?Hsave in Hal. cbn [store tick clock get_or] in Hal.
      rewrite previous_sentiment_after_save in Hal.
      * cbn [series_mean map] in Hal. apply (alerts_triggered_same_value _ _ Hal).
      * intros h Hin Hv. rewrite Hh in Hin. specialize (Hpast h Hin). lia.
  - unfold connects in Hc. unfold check_sentiment_alerts, bind, connect.
    destruct (db_faults w3) as [|[t|] fs]; [exfalso; auto| |exfalso; auto].
    discriminate.
Qed.

(** C1 (the code departs from it): the delta check of a cycle should
    compare the current average with the entry of the preceding cycle.  On a store whose latest
    entry for "v1" has average 0.4, a cycle that measures 0.1 would then
    raise a sentiment_drop of -0.3, as [check_sentiment_alerts] does when it
    is called before the cycle's own write.  [monitor_video] saves the
    snapshot first: the check then reads the entry the cycle has just
    written, compares 0.1 with 0.1, and the cycle ends with no alert. *)
Theorem monitor_video_baseline_is_own_entry :
  select_latest_history "v1" (video_sentiment_history (store world_after_one_cycle))
  = Some earlier_entry /\
  h_avg_sentiment earlier_entry = Fin (4 # 10) /\
  (exists a w',
     check_sentiment_alerts "v1" (Fin (1 # 10)) None world_after_one_cycle
     = (Ok [a], w') /\
     al_type a = sentiment_drop /\ pf_eq (al_value a) (Fin (- (3 # 10)))) /\
  exists r w' m own,
    monitor_video sample_env "v1" 100 true world_after_one_cycle = (Ok r, w') /\
    mr_status r = success /\
    mr_metrics r = Some m /\
    pf_eq (m_avg_sentiment m) (Fin (1 # 10)) /\
    m_alerts m = 0%Z /\
    alerts (store w') = [] /\
    select_latest_history "v1" (video_sentiment_history (store w')) = Some own /\
    h_timestamp own = 12%Z /\
    pf_eq (h_avg_sentiment own) (Fin (1 # 10)) /\
    previous_sentiment_of "v1" (store w') = Some (h_avg_sentiment own).
Proof.
  split; [reflexivity|]. split; [reflexivity|]. split.
  - apply (check_sentiment_alerts_drop_example "v1" world_after_one_cycle earlier_entry);
      [exact I|reflexivity|reflexivity].
  - destruct (monitor_video sample_env "v1" 100 true world_after_one_cycle)
      as [res w'] eqn:E.
    vm_compute in E. inversion E; subst res w'; clear E.
    eexists. eexists. eexists. eexists.
    split; [reflexivity|].
    split; [reflexivity|]. split; [reflexivity|].
    split; [vm_compute; reflexivity|]. split; [reflexivity|]. split; [reflexivity|].
    split; [vm_compute; reflexivity|]. split; [reflexivity|].
    split; [vm_compute; reflexivity|]. vm_compute; reflexivity.
Qed.

(** ** Sample runs *)

(** Three tracked videos, the second of which the API does not find. *)
Example partial_failure_run :
  exists results w',
    monitor_all_videos sample_env ["v1"; "gone"; "quiet"] 100 true fresh_world
    = (Ok results, w') /\
    map (fun r => (mr_video_id r, mr_status r)) results
    = [("v1", success); ("gone", no_comments); ("quiet", no_comments)] /\
    List.length (video_sentiment_history (store w')) = 1%nat.
Proof.
  destruct (monitor_all_videos sample_env ["v1"; "gone"; "quiet"] 100 true fresh_world)
    as [res w'] eqn:E.
  vm_compute in E. inversion E; subst res w'; clear E.
  eexists. eexists. split; [reflexivity|]. split; reflexivity.
Qed.

(** The database refuses the connection of [save_snapshot] for the first
    video: its entry is an error entry, and the two others are processed. *)
Example database_fault_run :
  exists results w',
    monitor_all_videos sample_env ["v1"; "gone"; "v3"] 100 true world_with_fault
    = (Ok results, w') /\
    map (fun r => (mr_video_id r, mr_status r, mr_error r)) results
    = [("v1", error, Some "database is locked");
       ("gone", no_comments, None);
       ("v3", success, None)].
Proof.
  destruct (monitor_all_videos sample_env ["v1"; "gone"; "v3"] 100 true world_with_fault)
    as [res w'] eqn:E.
  vm_compute in E. inversion E; subst res w'; clear E.
  eexists. eexists. split; reflexivity.
Qed.

(** A failure after the first page keeps the comments of the first page. *)
Example partial_fetch_run :
  fetch_pages "v1" 100
    (RPage [sample_thread "c1" "meh"] (Some (RFail (HttpError 403 "quotaExceeded")))) []
  = (thread_comments "v1" (sample_thread "c1" "meh"),
     Some (HttpError 403 "quotaExceeded")).
Proof. reflexivity. Qed.

Example sample_frame_history_row :
  h_positive_count (history_row "v1" 7 sample_frame) = 0%Z /\
  h_negative_count (history_row "v1" 7 sample_frame) = 1%Z /\
  h_neutral_count (history_row "v1" 7 sample_frame) = 1%Z /\
  h_total_comments (history_row "v1" 7 sample_frame) = 2%Z /\
  pf_eq (h_avg_sentiment (history_row "v1" 7 sample_frame)) (Fin (- (3 # 10))).
Proof. repeat split. Qed.

(** * Further properties of the monitor *)

From Stdlib Require Import Sorted Permutation.

Import Tracked Queries Quick MoreProps MoreSamples.

(** ** Calls that cannot raise *)

(** [get_video_info] returns without raising and without touching the
    world, whatever the API does. *)
Lemma get_video_info_run (env : Env) (video_id : string) (w : World) :
  get_video_info env video_id w
  = (Ok match videos_list env video_id (clock w) with
        | Ok (Some item) =>
            Some {| vi_video_id := video_id;
                    vi_title := get_or (it_title item) "Unknown";
                    vi_channel_title := get_or (it_channelTitle item) "Unknown";
                    vi_description := truncate200 (get_or (it_description item) EmptyString);
                    vi_published_at := get_or (it_publishedAt item) EmptyString;
                    vi_view_count := get_or (it_viewCount item) 0%Z;
                    vi_like_count := get_or (it_likeCount item) 0%Z;
                    vi_comment_count := get_or (it_commentCount item) 0%Z |}
        | _ => None
        end, w).
Proof.
  unfold get_video_info, bind, api_time, ret.
  destruct (videos_list env video_id (clock w)) as [[item|]|e]; reflexivity.
Qed.

(** ** Scoring a fetch *)

Lemma analyze_comments_sentiment_map (tb : TextBlob) (comments : list Comment) :
  analyze_comments_sentiment tb comments
  = map (fun c => {| row_comment := c;
                     Polarity := calculate_sentiment tb (comment_text c);
                     sentiment_category :=
                       categorize_sentiment (calculate_sentiment tb (comment_text c))
                                            None None |}) comments.
Proof.
  destruct comments as [|c cs]; [reflexivity|].
  unfold analyze_comments_sentiment, add_sentiment_categories, analyze_sentiment_batch.
  rewrite map_map. reflexivity.
Qed.

(** X1: the analysed frame has one row per fetched comment, in the order
    of the fetch, each with the polarity of its text and the category of
    that polarity; it is empty only when no comment was fetched.  So neither
    [monitor_video] nor [analyze_video_comments] ever returns the status
    analysis_failed. *)
Theorem analysis_never_fails (env : Env) (video_id : string) (max_comments : Z)
    (check_alerts : bool) (w : World) :
  (forall comments,
     let df := analyze_comments_sentiment (textblob env) comments in
     map row_comment df = comments /\
     List.length df = List.length comments /\
     (forall row, In row df ->
        Polarity row = calculate_sentiment (textblob env) (comment_text (row_comment row)) /\
        sentiment_category row = categorize_sentiment (Polarity row) None None) /\
     (df_empty df = true <-> comments = [])) /\
  (forall r w',
     monitor_video env video_id max_comments check_alerts w = (Ok r, w') ->
     mr_status r = success \/ mr_status r = no_comments) /\
  (forall r w',
     analyze_video_comments env video_id max_comments w = (Ok r, w') ->
     ar_status r = success \/ ar_status r = no_comments).
Proof.
  split; [|split].
  - intros comments df. subst df. rewrite analyze_comments_sentiment_map.
    split; [|split; [|split]].
    + rewrite map_map. cbn [row_comment]. apply map_id.
    + apply length_map.
    + intros row Hin. apply in_map_iff in Hin. destruct Hin as [c [<- _]].
      split; reflexivity.
    + destruct comments as [|c cs]; cbn; split; intros H; try reflexivity; discriminate.
  - intros r w'. rewrite monitor_video_unfold.
    destruct (get_video_title env video_id w) as [[title|e] w1]; [|discriminate].
    cbv zeta.
    destruct (fst (fetch_video_comments_at _ _ _ _)) as [|c cs].
    + intros H. inversion H. right. reflexivity.
    + cbn [analyze_comments_sentiment analyze_sentiment_batch add_sentiment_categories
           map df_empty].
      destruct (save_snapshot _ _ _) as [[[]|e] w3]; [|discriminate].
      destruct check_alerts;
        [destruct (check_sentiment_alerts _ _ None w3) as [[al|e] w4];
           [|discriminate]
        |unfold ret];
        intros H; inversion H; left; reflexivity.
  - intros r w'. unfold analyze_video_comments. unfold bind at 1.
    rewrite fetch_video_comments_run.
    destruct (fst (fetch_video_comments_at env video_id max_comments (clock w)))
      as [|c cs].
    + intros H. inversion H. right. reflexivity.
    + cbn [analyze_comments_sentiment analyze_sentiment_batch add_sentiment_categories
           map df_empty].
      unfold bind. rewrite get_video_info_run.
      intros H; inversion H; left; reflexivity.
Qed.

(** ** The comments a fetch returns *)

(** Induction along a pagination. *)
Lemma Response_pages_ind (P : Response -> Prop) :
  (forall e, P (RFail e)) ->
  (forall items, P (RPage items None)) ->
  (forall items next, P next -> P (RPage items (Some next))) ->
  forall response, P response.
Proof.
  intros Hfail Hlast Hnext. fix IH 1.
  intros [e|items [next|]].
  - apply Hfail.
  - apply Hnext. apply IH.
  - apply Hlast.
Qed.

Lemma parents_precede_nil : parents_precede [].
Proof.
  intros before c after p H. destruct before; discriminate.
Qed.

Lemma parents_precede_app (a b : list Comment) :
  parents_precede a -> parents_precede b -> parents_precede (a ++ b).
Proof.
  intros Ha Hb before c after p Heq Hp.
  apply app_eq_app in Heq. destruct Heq as [l [[H1 H2]|[H1 H2]]].
  - destruct l as [|x l'].
    + cbn in H2. rewrite app_nil_r in H1. subst a.
      destruct (Hb [] c after p (eq_sym H2) Hp) as [top [[] _]].
    + cbn in H2. inversion H2; subst x. subst a.
      apply (Ha before c l' p eq_refl Hp).
  - subst before.
    destruct (Hb l c after p H2 Hp) as [top [Hin Htop]].
    exists top. split; [apply in_or_app; right; exact Hin|exact Htop].
Qed.

Lemma parents_precede_thread (video_id : string) (item : Thread) :
  parents_precede (thread_comments video_id item).
Proof.
  intros before c after p Heq Hp. unfold thread_comments in Heq.
  destruct before as [|x before'].
  - cbn in Heq. inversion Heq as [[Hc Hafter]]. subst c. cbn in Hp. discriminate.
  - cbn in Heq. inversion Heq as [[Hx Htail]]. clear Heq.
    exists x. split; [left; exact Hx|].
    assert (In c (before' ++ c :: after)) as Hin
      by (apply in_or_app; right; left; reflexivity).
    rewrite <- Htail in Hin.
    destruct (replies item) as [rs|]; [|contradiction].
    apply in_map_iff in Hin. destruct Hin as [r [Hr _]]. subst c. cbn in Hp.
    inversion Hp. rewrite <- Hx. split; reflexivity.
Qed.

Lemma parents_precede_page (video_id : string) (items : list Thread) :
  parents_precede (flat_map (thread_comments video_id) items).
Proof.
  induction items as [|item rest IH]; cbn [flat_map].
  - apply parents_precede_nil.
  - apply parents_precede_app; [apply parents_precede_thread|exact IH].
Qed.

Lemma thread_comments_video_id (video_id : string) (item : Thread) (c : Comment) :
  In c (thread_comments video_id item) -> c_video_id c = video_id.
Proof.
  unfold thread_comments. intros [<-|Hin]; [reflexivity|].
  destruct (replies item) as [rs|]; [|contradiction].
  apply in_map_iff in Hin. destruct Hin as [r [<- _]]. reflexivity.
Qed.

Lemma page_video_id (video_id : string) (items : list Thread) (c : Comment) :
  In c (flat_map (thread_comments video_id) items) -> c_video_id c = video_id.
Proof.
  intros Hin. apply in_flat_map in Hin. destruct Hin as [item [_ Hc]].
  apply (thread_comments_video_id _ _ _ Hc).
Qed.

(** What [fetch_pages] returns: the list it was given, then whole pages in
    the order served, a prefix of all the pagination holds; before the
    last page it took, the list was shorter than [max_results]; and when the
    result is shorter than [max_results], every page has been taken. *)
Lemma fetch_pages_shape (video_id : string) (max_results : Z) (response : Response) :
  forall comments,
  exists before items rest,
    fst (fetch_pages video_id max_results response comments)
    = (before ++ flat_map (thread_comments video_id) items)%list /\
    (before = comments \/ (Z.of_nat (List.length before) < max_results)%Z) /\
    (comments ++ all_comments video_id response)%list
    = (fst (fetch_pages video_id max_results response comments) ++ rest)%list /\
    ((Z.of_nat (List.length (fst (fetch_pages video_id max_results response comments)))
      < max_results)%Z -> rest = []).
Proof.
  induction response as [e|items|items next IH] using Response_pages_ind;
    intros comments.
  - exists comments, [], []. cbn. rewrite !app_nil_r.
    repeat split. left. reflexivity.
  - exists comments, items, []. cbn. rewrite !app_nil_r.
    repeat split. left. reflexivity.
  - cbn [fetch_pages all_comments].
    destruct (Z.of_nat (List.length (comments ++ flat_map (thread_comments video_id) items))
              <? max_results)%Z eqn:E.
    + destruct (IH (comments ++ flat_map (thread_comments video_id) items)%list)
        as [before [items' [rest [Hshape [Hbefore [Hprefix Hall]]]]]].
      exists before, items', rest.
      split; [exact Hshape|]. split; [|split; [|exact Hall]].
      * right. destruct Hbefore as [->|Hlt]; [apply Z.ltb_lt; exact E|exact Hlt].
      * rewrite <- Hprefix. rewrite app_assoc. reflexivity.
    + exists comments, items, (all_comments video_id next). cbn [fst].
      split; [reflexivity|]. split; [left; reflexivity|].
      split; [rewrite app_assoc; reflexivity|].
      intros Hlt. apply Z.ltb_ge in E. lia.
Qed.

Lemma fetch_pages_threads (video_id : string) (max_results : Z) (response : Response) :
  forall comments,
    parents_precede comments ->
    (forall c, In c comments -> c_video_id c = video_id) ->
    parents_precede (fst (fetch_pages video_id max_results response comments)) /\
    (forall c, In c (fst (fetch_pages video_id max_results response comments)) ->
               c_video_id c = video_id).
Proof.
  induction response as [e|items|items next IH] using Response_pages_ind;
    intros comments Hpp Hid.
  - split; assumption.
  - cbn. split.
    + apply parents_precede_app; [exact Hpp|apply parents_precede_page].
    + intros c Hin. apply in_app_or in Hin.
      destruct Hin as [Hin|Hin]; [apply Hid; exact Hin|apply (page_video_id _ _ _ Hin)].
  - assert (parents_precede (comments ++ flat_map (thread_comments video_id) items))
      as Hpp' by (apply parents_precede_app; [exact Hpp|apply parents_precede_page]).
    assert (forall c, In c (comments ++ flat_map (thread_comments video_id) items) ->
                      c_video_id c = video_id) as Hid'.
    { intros c Hin. apply in_app_or in Hin.
      destruct Hin as [Hin|Hin]; [apply Hid; exact Hin|apply (page_video_id _ _ _ Hin)]. }
    cbn [fetch_pages].
    destruct (Z.of_nat (List.length (comments ++ flat_map (thread_comments video_id) items))
              <? max_results)%Z.
    + apply IH; assumption.
    + split; assumption.
Qed.

(** The list returned by a fetch is the empty list or the list collected
    by the pagination. *)
Lemma fetch_video_comments_at_cases (env : Env) (video_id : string) (max_results : Z)
    (t : Z) :
  (fst (fetch_video_comments_at env video_id max_results t) = [] /\
   ((max_results <= 0)%Z \/ forall item, videos_list env video_id t <> Ok (Some item)))
  \/
  ((0 < max_results)%Z /\
   (exists item, videos_list env video_id t = Ok (Some item)) /\
   fst (fetch_video_comments_at env video_id max_results t)
   = fst (fetch_pages video_id max_results (commentThreads_list env video_id t) [])).
Proof.
  unfold fetch_video_comments_at.
  destruct (videos_list env video_id t) as [[item|]|e].
  - destruct (0 <? max_results)%Z eqn:E.
    + right. apply Z.ltb_lt in E. split; [exact E|]. split; [exists item; reflexivity|].
      destruct (fetch_pages video_id max_results (commentThreads_list env video_id t) [])
        as [cs [e|]]; reflexivity.
    + left. apply Z.ltb_ge in E. split; [reflexivity|left; exact E].
  - left. split; [reflexivity|right; intros item; discriminate].
  - left. split; [reflexivity|right; intros item; discriminate].
Qed.

(** X2: every comment a fetch returns carries the id of the requested
    video, and every reply comes after the top-level comment it answers:
    the comment named by its parent_id is earlier in the list and is itself
    a top-level comment. *)
Theorem fetch_video_comments_threads (env : Env) (video_id : string)
    (max_results : Z) (t : Z) :
  (forall c, In c (fst (fetch_video_comments_at env video_id max_results t)) ->
             c_video_id c = video_id) /\
  parents_precede (fst (fetch_video_comments_at env video_id max_results t)).
Proof.
  destruct (fetch_video_comments_at_cases env video_id max_results t)
    as [[-> _]|[_ [_ ->]]].
  - split; [intros c []|apply parents_precede_nil].
  - destruct (fetch_pages_threads video_id max_results
                (commentThreads_list env video_id t) [] parents_precede_nil)
      as [Hpp Hid]; [intros c []|].
    split; assumption.
Qed.

(** X3: a fetch takes whole pages in the order the API serves them and
    asks for the next page only while it holds fewer than [max_results]
    comments.  The list before the last page taken is shorter than
    [max_results], so the excess over [max_results] is at most one page;
    with [max_results] not positive nothing is requested; and a result
    shorter than [max_results] holds everything the pagination had, up to
    its end or its first failure. *)
Theorem fetch_video_comments_pagination (env : Env) (video_id : string)
    (max_results : Z) (t : Z) :
  ((max_results <= 0)%Z ->
   fst (fetch_video_comments_at env video_id max_results t) = []) /\
  (exists before items,
     fst (fetch_video_comments_at env video_id max_results t)
     = (before ++ flat_map (thread_comments video_id) items)%list /\
     (before = [] \/ (Z.of_nat (List.length before) < max_results)%Z)) /\
  (forall item,
     videos_list env video_id t = Ok (Some item) ->
     (0 < max_results)%Z ->
     exists rest,
       all_comments video_id (commentThreads_list env video_id t)
       = (fst (fetch_video_comments_at env video_id max_results t) ++ rest)%list /\
       ((Z.of_nat (List.length (fst (fetch_video_comments_at env video_id max_results t)))
         < max_results)%Z -> rest = [])).
Proof.
  destruct (fetch_video_comments_at_cases env video_id max_results t)
    as [[Hnil Hwhy]|[Hmax [[item Hitem] Hpages]]].
  - rewrite Hnil. split; [reflexivity|]. split.
    + exists [], []. split; [reflexivity|left; reflexivity].
    + intros item Hitem Hmax. destruct Hwhy as [Hle|Hno]; [lia|].
      exfalso. apply (Hno item Hitem).
  - rewrite Hpages.
    destruct (fetch_pages_shape video_id max_results
                (commentThreads_list env video_id t) [])
      as [before [items [rest [Hshape [Hbefore [Hprefix Hall]]]]]].
    split; [intros Hle; lia|]. split.
    + exists before, items. split; [exact Hshape|exact Hbefore].
    + intros item' _ _. exists rest. split; [exact Hprefix|exact Hall].
Qed.

(** ** The list of tracked videos *)

Lemma tracked_In (video_id : string) (video_ids : list string) :
  tracked video_id video_ids = true <-> In video_id video_ids.
Proof.
  unfold tracked. rewrite existsb_exists. split.
  - intros [x [Hin Heq]]. apply String.eqb_eq in Heq. subst x. exact Hin.
  - intros Hin. exists video_id. split; [exact Hin|apply String.eqb_refl].
Qed.

Lemma tracked_not_In (video_id : string) (video_ids : list string) :
  tracked video_id video_ids = false <-> ~ In video_id video_ids.
Proof.
  rewrite <- tracked_In. destruct (tracked video_id video_ids); split; intros H;
    try discriminate; try reflexivity; try (intros H'; discriminate).
  exfalso. apply H. reflexivity.
Qed.

Lemma list_remove_split (x : string) (l : list string) :
  In x l ->
  exists l1 l2, l = (l1 ++ x :: l2)%list /\ ~ In x l1 /\ list_remove x l = (l1 ++ l2)%list.
Proof.
  induction l as [|y rest IH]; intros Hin; [contradiction|].
  cbn [list_remove]. destruct (String.eqb y x) eqn:E.
  - apply String.eqb_eq in E. subst y. exists [], rest. repeat split. intros [].
  - apply String.eqb_neq in E. destruct Hin as [Hy|Hin]; [contradiction|].
    destruct (IH Hin) as [l1 [l2 [Hl [Hnot Hrem]]]].
    exists (y :: l1), l2. split; [rewrite Hl; reflexivity|]. split.
    + intros [Hy|Hin1]; [apply E; exact Hy|apply Hnot; exact Hin1].
    + rewrite Hrem. reflexivity.
Qed.

Lemma list_remove_snoc (x : string) (l : list string) :
  ~ In x l -> list_remove x (l ++ [x]) = l.
Proof.
  induction l as [|y rest IH]; intros Hnot; cbn.
  - rewrite String.eqb_refl. reflexivity.
  - destruct (String.eqb y x) eqn:E.
    + apply String.eqb_eq in E. exfalso. apply Hnot. left. exact E.
    + rewrite IH; [reflexivity|]. intros Hin. apply Hnot. right. exact Hin.
Qed.

(** X4: [add_video] keeps the tracked list a set.  After the call the
    video is tracked, the ids tracked before keep their places, nothing else
    is added, and a list without duplicates stays without duplicates.  For a
    video that is tracked already the call changes nothing: neither the
    list nor the world, so no request is sent and the database is not
    opened; adding twice is adding once. *)
Theorem add_video_keeps_set (env : Env) (video_id : string) (video_ids : list string) :
  tracked video_id (fst (add_video env video_id video_ids)) = true /\
  (fst (add_video env video_id video_ids) = video_ids \/
   fst (add_video env video_id video_ids) = (video_ids ++ [video_id])%list) /\
  (forall v, tracked v (fst (add_video env video_id video_ids))
             = tracked v video_ids || String.eqb v video_id) /\
  (NoDup video_ids -> NoDup (fst (add_video env video_id video_ids))) /\
  (tracked video_id video_ids = true ->
   fst (add_video env video_id video_ids) = video_ids /\
   forall w, snd (add_video env video_id video_ids) w = (Ok tt, w)) /\
  fst (add_video env video_id (fst (add_video env video_id video_ids)))
  = fst (add_video env video_id video_ids).
Proof.
  assert (forall v, tracked v (video_ids ++ [video_id])
                    = tracked v video_ids || String.eqb v video_id) as Happ.
  { intros v. unfold tracked. rewrite existsb_app. cbn. rewrite orb_false_r.
    reflexivity. }
  unfold add_video. destruct (tracked video_id video_ids) eqn:E; cbn [fst snd].
  - split; [exact E|]. split; [left; reflexivity|]. split; [|split; [|split]].
    + intros v. destruct (String.eqb v video_id) eqn:Ev.
      * apply String.eqb_eq in Ev. subst v. rewrite E. reflexivity.
      * rewrite orb_false_r. reflexivity.
    + intros H. exact H.
    + intros _. split; [reflexivity|]. intros w. reflexivity.
    + rewrite E. reflexivity.
  - split; [rewrite Happ, String.eqb_refl; apply orb_true_r|].
    split; [right; reflexivity|]. split; [exact Happ|]. split; [|split].
    + intros Hnd. apply tracked_not_In in E.
      apply NoDup_app; [exact Hnd|constructor; [intros []|constructor]|].
      intros x Hx [<-|[]]. apply E. exact Hx.
    + discriminate.
    + rewrite Happ, String.eqb_refl, orb_true_r. reflexivity.
Qed.

(** X5: [remove_video] takes out the first occurrence of the id and
    nothing else: the other ids keep their order.  On a list without
    duplicates the video is no longer tracked afterwards; an id that is not
    tracked leaves the list as it is; and removing a video just added to a
    list that did not hold it gives the list back. *)
Theorem remove_video_first_occurrence (env : Env) (video_id : string)
    (video_ids : list string) :
  (tracked video_id video_ids = false -> remove_video video_id video_ids = video_ids) /\
  (tracked video_id video_ids = true ->
   exists l1 l2,
     video_ids = (l1 ++ video_id :: l2)%list /\
     ~ In video_id l1 /\
     remove_video video_id video_ids = (l1 ++ l2)%list) /\
  (NoDup video_ids ->
   NoDup (remove_video video_id video_ids) /\
   tracked video_id (remove_video video_id video_ids) = false) /\
  (forall v, v <> video_id ->
     tracked v (remove_video video_id video_ids) = tracked v video_ids) /\
  (tracked video_id video_ids = false ->
   remove_video video_id (fst (add_video env video_id video_ids)) = video_ids).
Proof.
  assert (tracked video_id video_ids = true ->
          exists l1 l2,
            video_ids = (l1 ++ video_id :: l2)%list /\
            ~ In video_id l1 /\
            remove_video video_id video_ids = (l1 ++ l2)%list) as Hsplit.
  { intros E. unfold remove_video. rewrite E.
    apply list_remove_split. apply tracked_In. exact E. }
  split; [intros E; unfold remove_video; rewrite E; reflexivity|].
  split; [exact Hsplit|]. split; [|split].
  - intros Hnd. destruct (tracked video_id video_ids) eqn:E.
    + destruct (Hsplit eq_refl) as [l1 [l2 [Hl [Hnot Hrem]]]].
      rewrite Hrem. rewrite Hl in Hnd.
      split; [apply NoDup_remove_1 in Hnd; exact Hnd|].
      apply tracked_not_In. apply NoDup_remove_2 in Hnd. exact Hnd.
    + unfold remove_video. rewrite E. split; [exact Hnd|exact E].
  - intros v Hv. destruct (tracked video_id video_ids) eqn:E.
    + destruct (Hsplit eq_refl) as [l1 [l2 [Hl [Hnot Hrem]]]].
      rewrite Hrem, Hl. unfold tracked. rewrite !existsb_app. cbn.
      apply String.eqb_neq in Hv. rewrite Hv. reflexivity.
    + unfold remove_video. rewrite E. reflexivity.
  - intros E. unfold add_video. rewrite E. cbn [fst].
    unfold remove_video.
    assert (tracked video_id (video_ids ++ [video_id]) = true) as ->.
    { unfold tracked. rewrite existsb_app. cbn. rewrite String.eqb_refl.
      apply orb_true_r. }
    apply list_remove_snoc. apply tracked_not_In. exact E.
Qed.

(** ** The video-info cache *)










(** ** Reading the history and the alerts *)

Section OrderBy.

Context {A : Type}.
Variable le : A -> A -> bool.
Hypothesis le_total : forall a b, le a b = true \/ le b a = true.
Hypothesis le_trans : forall a b c, le a b = true -> le b c = true -> le a c = true.





End OrderBy.






(** ** Which alerts can come together *)

(** A call of [check_sentiment_alerts] that returns has opened the
    database, and has done what [check_sentiment_alerts_run] says. *)
Lemma check_sentiment_alerts_returned (video_id : string) (current : pyfloat)
    (thresholds : option Thresholds) (w w' : World) (triggered : list AlertDict) :
  check_sentiment_alerts video_id current thresholds w = (Ok triggered, w') ->
  connects w /\
  triggered = alerts_triggered (previous_sentiment_of video_id (store w)) current
                               (get_or thresholds default_thresholds) /\
  w' = {| store := save_alerts video_id (clock w) triggered (store w);
          clock := (clock w + 1)%Z;
          db_faults := tl (db_faults w) |}.
Proof.
  intros H.
  assert (connects w \/ ~ connects w) as [Hc|Hc]
    by (unfold connects; destruct (db_faults w) as [|[t|] fs]; auto).
  - rewrite (check_sentiment_alerts_run _ _ _ _ Hc) in H.
    inversion H. split; [exact Hc|]. split; reflexivity.
  - exfalso. unfold connects in Hc.
    unfold check_sentiment_alerts, bind, connect in H.
    destruct (db_faults w) as [|[t|] fs]; [apply Hc; exact I|discriminate|apply Hc; exact I].
Qed.

Lemma pf_Lt_trans (a b c : pyfloat) : pf_Lt a b -> pf_Lt b c -> pf_Lt a c.
Proof.
  destruct a, b, c; cbn; try contradiction. intros H1 H2. lra.
Qed.

Lemma alerts_triggered_types (previous : option pyfloat) (current : pyfloat)
    (th : Thresholds) :
  NoDup (map al_type (alerts_triggered previous current th)).
Proof.
  unfold alerts_triggered.
  destruct (pf_lt current (th_negative_threshold th));
    destruct (pf_gt current (th_positive_threshold th));
    destruct previous as [p|];
    try destruct (pf_lt (pf_sub current p) (pf_neg (th_drop_threshold th)));
    try destruct (pf_gt (pf_sub current p) (th_rise_threshold th));
    cbn; repeat constructor; cbn; intuition discriminate.
Qed.

(** X10: a call of [check_sentiment_alerts] that returns yields each kind
    of alert at most once.  A negative_threshold and a positive_threshold
    alert come together only when the positive threshold is below the
    negative one, and a drop and a rise only when the rise threshold is
    below minus the drop threshold; with the default thresholds a call
    yields at most two alerts.  The alerts returned are the rows added to
    the alerts table, in the same order, under the video id and the time of
    the call; no other table changes. *)
Theorem check_sentiment_alerts_exclusive (video_id : string) (current : pyfloat)
    (thresholds : option Thresholds) (w w' : World) (triggered : list AlertDict)
    (Hrun : check_sentiment_alerts video_id current thresholds w = (Ok triggered, w')) :
  let th := get_or thresholds default_thresholds in
  NoDup (map al_type triggered) /\
  (forall a b, In a triggered -> In b triggered ->
     al_type a = negative_threshold -> al_type b = positive_threshold ->
     pf_Lt (th_positive_threshold th) (th_negative_threshold th)) /\
  (forall a b, In a triggered -> In b triggered ->
     al_type a = sentiment_drop -> al_type b = sentiment_rise ->
     pf_Lt (th_rise_threshold th) (pf_neg (th_drop_threshold th))) /\
  (thresholds = None -> (List.length triggered <= 2)%nat) /\
  alerts (store w') = (alerts (store w) ++ map (alert_row video_id (clock w)) triggered)%list /\
  video_sentiment_history (store w') = video_sentiment_history (store w) /\
  comment_snapshots (store w') = comment_snapshots (store w) /\
  video_info_cache (store w') = video_info_cache (store w).
Proof.
  intros th.
  destruct (check_sentiment_alerts_returned _ _ _ _ _ _ Hrun) as [_ [Htr Hw]].
  fold th in Htr.
  assert (forall a b, In a triggered -> In b triggered ->
            al_type a = negative_threshold -> al_type b = positive_threshold ->
            pf_Lt (th_positive_threshold th) (th_negative_threshold th)) as Habs.
  { intros a b Ha Hb Hta Htb. rewrite Htr in Ha, Hb.
    apply in_alerts_triggered in Ha. apply in_alerts_triggered in Hb.
    rewrite Hta in Ha. rewrite Htb in Hb.
    destruct Ha as [Ha _]. destruct Hb as [Hb _].
    apply pf_lt_iff in Ha. apply pf_lt_iff in Hb.
    apply (pf_Lt_trans _ _ _ Hb Ha). }
  assert (forall a b, In a triggered -> In b triggered ->
            al_type a = sentiment_drop -> al_type b = sentiment_rise ->
            pf_Lt (th_rise_threshold th) (pf_neg (th_drop_threshold th))) as Hdelta.
  { intros a b Ha Hb Hta Htb. rewrite Htr in Ha, Hb.
    apply in_alerts_triggered in Ha. apply in_alerts_triggered in Hb.
    rewrite Hta in Ha. rewrite Htb in Hb.
    destruct Ha as [p [Hp [Ha _]]]. destruct Hb as [p' [Hp' [Hb _]]].
    rewrite Hp in Hp'. inversion Hp'; subst p'.
    apply pf_lt_iff in Ha. apply pf_lt_iff in Hb.
    apply (pf_Lt_trans _ _ _ Hb Ha). }
  split; [rewrite Htr; apply alerts_triggered_types|].
  split; [exact Habs|]. split; [exact Hdelta|]. split.
  - intros Hnone. subst thresholds. cbn in th.
    assert (forall a b, In a triggered -> In b triggered ->
              al_type a = negative_threshold -> al_type b = positive_threshold -> False)
      as Habs'.
    { intros a b Ha Hb Hta Htb. specialize (Habs a b Ha Hb Hta Htb).
      subst th. cbn in Habs. lra. }
    assert (forall a b, In a triggered -> In b triggered ->
              al_type a = sentiment_drop -> al_type b = sentiment_rise -> False)
      as Hdelta'.
    { intros a b Ha Hb Hta Htb. specialize (Hdelta a b Ha Hb Hta Htb).
      subst th. cbn in Hdelta. lra. }
    clear Habs Hdelta Hw Hrun.
    rewrite Htr in Habs', Hdelta' |- *. clear Htr. revert Habs' Hdelta'.
    unfold alerts_triggered.
    destruct (pf_lt current (th_negative_threshold th));
      destruct (pf_gt current (th_positive_threshold th));
      destruct (previous_sentiment_of video_id (store w)) as [p|];
      try destruct (pf_lt (pf_sub current p) (pf_neg (th_drop_threshold th)));
      try destruct (pf_gt (pf_sub current p) (th_rise_threshold th));
      cbn; intros Habs' Hdelta'; try lia; exfalso;
      first [ eapply Habs'; [left; reflexivity|right; left; reflexivity
                            |reflexivity|reflexivity]
            | eapply Hdelta'; [left; reflexivity|right; left; reflexivity
                              |reflexivity|reflexivity]
            | eapply Hdelta'; [right; left; reflexivity|right; right; left; reflexivity
                              |reflexivity|reflexivity] ].
  - rewrite Hw. cbn. repeat split.
Qed.

Lemma check_sentiment_alerts_exclusive_witness :
  exists triggered w',
    check_sentiment_alerts "v1" (Fin (1 # 10)) None world_after_one_cycle
    = (Ok triggered, w') /\
    NoDup (map al_type triggered) /\
    (List.length triggered <= 2)%nat.
Proof.
  destruct (check_sentiment_alerts "v1" (Fin (1 # 10)) None world_after_one_cycle)
    as [[triggered|e] w'] eqn:E; [|vm_compute in E; discriminate].
  exists triggered, w'. split; [reflexivity|].
  pose proof (check_sentiment_alerts_exclusive "v1" (Fin (1 # 10)) None
                world_after_one_cycle w' triggered E) as H.
  cbv zeta in H. split; [apply H|apply H; reflexivity].
Defined.

(** ** What a successful cycle leaves behind *)







(** ** The rows [save_snapshot] writes for the comments *)





(** ** The UNIQUE constraints *)

Section ReplaceKeepsUnique.

Context {A : Type}.
Variable conflict : A -> A -> bool.
Hypothesis conflict_sym : forall a b, conflict a b = conflict b a.

Lemma unique_rows_filter (f : A -> bool) (table : list A) :
  unique_rows conflict table -> unique_rows conflict (filter f table).
Proof.
  induction table as [|r rest IH]; cbn; intros Hu; [exact I|].
  destruct Hu as [Hr Hrest]. destruct (f r); cbn.
  - split; [|apply IH; exact Hrest].
    intros r' Hin. apply filter_In in Hin. apply Hr. apply Hin.
  - apply IH. exact Hrest.
Qed.

Lemma insert_or_replace_unique (row : A) (table : list A) :
  unique_rows conflict table ->
  unique_rows conflict (insert_or_replace conflict row table).
Proof.
  intros Hu. unfold insert_or_replace. apply unique_rows_snoc.
  - apply unique_rows_filter. exact Hu.
  - intros r Hin. apply filter_In in Hin. destruct Hin as [_ Hc].
    rewrite conflict_sym. apply negb_true_iff. exact Hc.
Qed.

End ReplaceKeepsUnique.

Lemma history_conflict_sym (a b : HistoryRow) :
  history_conflict a b = history_conflict b a.
Proof.
  unfold history_conflict.
  rewrite (String.eqb_sym (h_video_id a)), (Z.eqb_sym (h_timestamp a)). reflexivity.
Qed.

Lemma video_info_conflict_sym (a b : VideoInfoRow) :
  video_info_conflict a b = video_info_conflict b a.
Proof. unfold video_info_conflict. apply String.eqb_sym. Qed.

(** X13: the UNIQUE constraints of the schema are invariants of the
    monitor.  If a store has at most one cached row per video id, one
    history entry per (video_id, timestamp) and one comment snapshot per
    (video_id, comment_id, timestamp), then so has the store left by
    [save_snapshot], by [add_video], by [monitor_video] and by a whole pass
    of [monitor_all_videos], whatever the API answers and whether or not the
    database opens. *)
Theorem unique_constraints_preserved (env : Env) (w : World)
    (Hunique : constraints_hold (store w)) :
  (forall video_id df, constraints_hold (store (snd (save_snapshot video_id df w)))) /\
  (forall video_id video_ids,
     constraints_hold (store (snd (snd (add_video env video_id video_ids) w)))) /\
  (forall video_id max_comments check_alerts,
     constraints_hold
       (store (snd (monitor_video env video_id max_comments check_alerts w)))) /\
  (forall video_ids max_comments check_alerts,
     constraints_hold
       (store (snd (monitor_all_videos env video_ids max_comments check_alerts w)))).
Proof.
  assert (forall info ts s, constraints_hold s ->
                            constraints_hold (upsert_video_info info ts s)) as Hupsert.
  { intros info ts s [Hc [Hh Hs]]. unfold constraints_hold. cbn.
    split; [|split; assumption].
    apply insert_or_replace_unique; [apply video_info_conflict_sym|exact Hc]. }
  assert (forall ts video_id df s, constraints_hold s ->
                                   constraints_hold (save_snapshot_at ts video_id df s))
    as Hsave.
  { intros ts video_id df s [Hc [Hh Hs]]. unfold constraints_hold. cbn.
    split; [exact Hc|]. split.
    - apply insert_or_replace_unique; [apply history_conflict_sym|exact Hh].
    - apply append_comment_snapshots_unique. exact Hs. }
  assert (forall video_id ts triggered s, constraints_hold s ->
                                          constraints_hold (save_alerts video_id ts triggered s))
    as Halerts.
  { intros video_id ts triggered s H. exact H. }
  split; [|split; [|split]].
  - intros video_id df.
    apply (preserves_save_snapshot constraints_hold Hsave); exact Hunique.
  - intros video_id video_ids. unfold add_video.
    destruct (tracked video_id video_ids); cbn [snd]; [exact Hunique|].
    apply (preserves_bind constraints_hold); [|intros a; apply preserves_ret|exact Hunique].
    unfold cache_video_info.
    apply preserves_bind; [apply preserves_get_video_info|].
    intros [info|]; [|apply preserves_ret].
    apply preserves_bind; [apply preserves_connect|intros _].
    apply preserves_bind; [apply preserves_now|intros ts].
    apply preserves_bind; [apply preserves_commit; apply Hupsert|intros _].
    apply preserves_ret.
  - intros video_id max_comments check_alerts.
    apply (preserves_monitor_video constraints_hold Hupsert Hsave Halerts); exact Hunique.
  - intros video_ids max_comments check_alerts.
    apply (preserves_monitor_all_videos constraints_hold Hupsert Hsave Halerts);
      exact Hunique.
Qed.

Lemma unique_constraints_preserved_witness :
  constraints_hold (store fresh_world) /\
  constraints_hold
    (store (snd (monitor_all_videos sample_env ["v1"; "gone"; "quiet"] 100 true fresh_world))).
Proof.
  assert (constraints_hold (store fresh_world)) as H by (repeat split).
  split; [exact H|].
  apply (proj2 (proj2 (proj2 (unique_constraints_preserved sample_env fresh_world H)))).
Defined.

(** ** The baseline query *)

(** X14: the row [check_sentiment_alerts] selects as the previous state
    of a video is a stored entry of that video whose timestamp no other
    entry of the video exceeds; the query finds nothing exactly when the
    video has no entry. *)
Theorem select_latest_history_max (video_id : string) (table : list HistoryRow) :
  match select_latest_history video_id table with
  | Some r =>
      In r table /\ h_video_id r = video_id /\
      forall r', In r' table -> h_video_id r' = video_id ->
                 (h_timestamp r' <= h_timestamp r)%Z
  | None => forall r', In r' table -> h_video_id r' <> video_id
  end.
Proof.
  induction table as [|a rest IH]; cbn [select_latest_history].
  - intros r' [].
  - destruct (String.eqb (h_video_id a) video_id) eqn:Ea.
    + apply String.eqb_eq in Ea.
      destruct (select_latest_history video_id rest) as [r|].
      * destruct IH as [Hin [Hv Hmax]].
        destruct (h_timestamp a <? h_timestamp r)%Z eqn:Elt.
        -- apply Z.ltb_lt in Elt. split; [right; exact Hin|]. split; [exact Hv|].
           intros r' [<-|Hin'] Hv'; [lia|apply Hmax; assumption].
        -- apply Z.ltb_ge in Elt. split; [left; reflexivity|]. split; [exact Ea|].
           intros r' [<-|Hin'] Hv'; [lia|].
           specialize (Hmax r' Hin' Hv'). lia.
      * split; [left; reflexivity|]. split; [exact Ea|].
        intros r' [<-|Hin'] Hv'; [lia|]. exfalso. apply (IH r' Hin' Hv').
    + apply String.eqb_neq in Ea.
      destruct (select_latest_history video_id rest) as [r|].
      * destruct IH as [Hin [Hv Hmax]]. split; [right; exact Hin|]. split; [exact Hv|].
        intros r' [<-|Hin'] Hv'; [contradiction|apply Hmax; assumption].
      * intros r' [<-|Hin']; [exact Ea|apply IH; exact Hin'].
Qed.

(** ** The analysis that persists nothing *)



(** ** Cycles on a database that opens *)

Lemma monitor_video_healthy (env : Env) (video_id : string) (max_comments : Z)
    (check_alerts : bool) (w : World) :
  db_faults w = [] ->
  exists r w',
    monitor_video env video_id max_comments check_alerts w = (Ok r, w') /\
    db_faults w' = [] /\
    (mr_status r = success \/ mr_status r = no_comments) /\
    mr_error r = None.
Proof.
  intros Hdb. rewrite monitor_video_unfold.
  destruct (get_video_title_ok env video_id w Hdb) as [title [w1 [Ht Hdb1]]].
  rewrite Ht. cbv zeta. cbn [tick clock].
  destruct (fst (fetch_video_comments_at env video_id max_comments (clock w1 + 1)))
    as [|c cs] eqn:Efetch.
  - eexists. eexists. split; [reflexivity|]. cbn.
    split; [exact Hdb1|]. split; [right; reflexivity|reflexivity].
  - cbn [analyze_comments_sentiment analyze_sentiment_batch add_sentiment_categories
         map df_empty].
    match goal with
    | |- context [save_snapshot video_id (?x :: ?xs) (tick w1)] =>
        set (row := x); set (rows := xs)
    end.
    pose proof (save_snapshot_run video_id row rows (tick w1)) as Hsave.
    assert (exists w3, save_snapshot video_id (row :: rows) (tick w1) = (Ok tt, w3))
      as [w3 Hs3].
    { unfold save_snapshot. cbn [df_empty]. unfold bind, connect, tick.
      cbn [db_faults]. rewrite Hdb1. eexists. reflexivity. }
    rewrite Hs3 in Hsave |- *.
    assert (db_faults w3 = []) as Hdb3
      by (rewrite Hsave; cbn; rewrite Hdb1; reflexivity).
    destruct check_alerts.
    + assert (connects w3) as Hc by (unfold connects; rewrite Hdb3; exact I).
      rewrite (check_sentiment_alerts_run _ _ _ _ Hc).
      eexists. eexists. split; [reflexivity|]. cbn [tick db_faults mr_status mr_error].
      split; [rewrite Hdb3; reflexivity|]. split; [left; reflexivity|reflexivity].
    + unfold ret. eexists. eexists. split; [reflexivity|].
      cbn [tick db_faults mr_status mr_error].
      split; [exact Hdb3|]. split; [left; reflexivity|reflexivity].
Qed.

Lemma monitor_loop_healthy (env : Env) (max_comments : Z) (check_alerts : bool)
    (video_ids : list string) :
  forall results w,
    db_faults w = [] ->
    Forall (fun r => (mr_status r = success \/ mr_status r = no_comments)
                     /\ mr_error r = None) results ->
    exists rs w',
      monitor_loop env max_comments check_alerts video_ids results w = (Ok rs, w') /\
      db_faults w' = [] /\
      Forall (fun r => (mr_status r = success \/ mr_status r = no_comments)
                       /\ mr_error r = None) rs.
Proof.
  induction video_ids as [|v rest IH]; intros results w Hdb Hres.
  - exists results, w. repeat split; assumption.
  - cbn [monitor_loop]. unfold bind. rewrite monitor_one_run.
    destruct (monitor_video_healthy env v max_comments check_alerts w Hdb)
      as [r [w1 [Hrun [Hdb1 [Hst Herr]]]]].
    rewrite Hrun. apply IH; [exact Hdb1|].
    apply Forall_app. split; [exact Hres|]. constructor; [|constructor].
    split; assumption.
Qed.

(** X16: failures of the API never surface as errors.  On a database
    whose connections all open, [monitor_video] returns for every video and
    every behaviour of the API, with status success or no_comments, and a
    pass of [monitor_all_videos] returns a list in which no entry has status
    error or carries an error text. *)
Theorem monitor_all_videos_healthy (env : Env) (video_ids : list string)
    (max_comments : Z) (check_alerts : bool) (w : World)
    (Hdb : db_faults w = []) :
  (forall video_id,
     exists r w',
       monitor_video env video_id max_comments check_alerts w = (Ok r, w') /\
       (mr_status r = success \/ mr_status r = no_comments)) /\
  exists results w',
    monitor_all_videos env video_ids max_comments check_alerts w = (Ok results, w') /\
    db_faults w' = [] /\
    map mr_video_id results = video_ids /\
    Forall (fun r => (mr_status r = success \/ mr_status r = no_comments)
                     /\ mr_error r = None) results.
Proof.
  split.
  - intros video_id.
    destruct (monitor_video_healthy env video_id max_comments check_alerts w Hdb)
      as [r [w' [Hrun [_ [Hst _]]]]].
    exists r, w'. split; assumption.
  - rewrite monitor_all_videos_loop.
    destruct (monitor_loop_healthy env max_comments check_alerts video_ids [] w Hdb)
      as [rs [w' [Hrun [Hdb' Hall]]]]; [constructor|].
    exists rs, w'. split; [exact Hrun|]. split; [exact Hdb'|]. split; [|exact Hall].
    destruct (monitor_loop_appends env max_comments check_alerts video_ids [] w)
      as [rs' [w'' [_ [Hrun' Hids]]]].
    rewrite Hrun in Hrun'. inversion Hrun'; subst rs'. exact Hids.
Qed.

Lemma monitor_all_videos_healthy_witness :
  db_faults fresh_world = [] /\
  exists results w',
    monitor_all_videos sample_env ["denied"; "broken"; "closed"; "v1"] 100 true fresh_world
    = (Ok results, w') /\
    Forall (fun r => (mr_status r = success \/ mr_status r = no_comments)
                     /\ mr_error r = None) results.
Proof.
  split; [reflexivity|].
  destruct (proj2 (monitor_all_videos_healthy sample_env
                     ["denied"; "broken"; "closed"; "v1"] 100 true fresh_world eq_refl))
    as [results [w' [Hrun [_ [_ Hall]]]]].
  exists results, w'. split; [exact Hrun|exact Hall].
Defined.

(** * The videos of a channel *)

Import Channel.

(** ** Python string operations *)

Lemma append_nil_r (s : string) : s ++ EmptyString = s.
Proof. induction s as [|c s IH]; cbn; [reflexivity|rewrite IH; reflexivity]. Qed.

Lemma append_assoc (a b c : string) : (a ++ b) ++ c = a ++ (b ++ c).
Proof. induction a as [|x a IH]; cbn; [reflexivity|rewrite IH; reflexivity]. Qed.

Lemma prefix_app (sep rest : string) : String.prefix sep (sep ++ rest) = true.
Proof.
  induction sep as [|c sep IH]; cbn; [destruct rest; reflexivity|].
  destruct (ascii_dec c c) as [_|Hne]; [exact IH|exfalso; apply Hne; reflexivity].
Qed.

Lemma split_from_nonempty (sep : string) (s : string) :
  forall skip piece, split_from sep skip piece s <> [].
Proof.
  induction s as [|c s IH]; intros skip piece; cbn [split_from]; [discriminate|].
  destruct skip as [|k]; [|apply IH].
  destruct (String.prefix sep (String c s)); [discriminate|apply IH].
Qed.

Lemma split_from_skip (sep t : string) :
  forall piece rest,
    split_from sep (String.length t) piece (t ++ rest) = split_from sep 0 piece rest.
Proof.
  induction t as [|c t IH]; intros piece rest; cbn; [reflexivity|apply IH].
Qed.

(** Where the separator starts, the piece is closed. *)
Lemma split_from_match (c : ascii) (sep' piece rest : string) :
  split_from (String c sep') 0 piece (String c sep' ++ rest)
  = piece :: split_from (String c sep') 0 EmptyString rest.
Proof.
  cbn [append split_from].
  assert (String.prefix (String c sep') (String c (sep' ++ rest)) = true) as ->
    by apply (prefix_app (String c sep') rest).
  replace (String.length (String c sep') - 1)%nat with (String.length sep')
    by (cbn [String.length]; lia).
  rewrite split_from_skip. reflexivity.
Qed.

(** A text in which no separator starts, before a continuation [b], is
    read into the current piece. *)
Lemma split_from_through (sep a b : string) :
  (forall a1 c a2, a = a1 ++ String c a2 -> String.prefix sep (String c a2 ++ b) = false) ->
  forall piece,
    split_from sep 0 piece (a ++ b) = split_from sep 0 (piece ++ a) b.
Proof.
  induction a as [|c a IH]; intros Hno piece.
  - cbn. rewrite append_nil_r. reflexivity.
  - cbn [append split_from].
    assert (String.prefix sep (String c (a ++ b)) = false) as ->
      by (apply (Hno EmptyString c a); reflexivity).
    rewrite IH.
    + rewrite append_assoc. reflexivity.
    + intros a1 c' a2 Heq. apply (Hno (String c a1) c' a2). cbn. rewrite Heq. reflexivity.
Qed.

Lemma contains_through (sep a b : string) :
  (forall a1 c a2, a = a1 ++ String c a2 -> String.prefix sep (String c a2 ++ b) = false) ->
  contains sep (a ++ b) = contains sep b.
Proof.
  induction a as [|c a IH]; intros Hno; [reflexivity|].
  cbn [append contains].
  assert (String.prefix sep (String c (a ++ b)) = false) as ->
    by (apply (Hno EmptyString c a); reflexivity).
  cbn [orb]. apply IH.
  intros a1 c' a2 Heq. apply (Hno (String c a1) c' a2). cbn. rewrite Heq. reflexivity.
Qed.

Lemma contains_suffix (sub a1 a2 : string) :
  contains sub (a1 ++ a2) = false -> contains sub a2 = false.
Proof.
  induction a1 as [|c a1 IH]; cbn [append]; intros H; [exact H|].
  cbn [contains] in H. apply orb_false_iff in H. apply IH. apply H.
Qed.

Lemma contains_prefix_false (sub s : string) :
  contains sub s = false -> String.prefix sub s = false.
Proof.
  destruct s as [|c s]; cbn [contains]; intros H; apply orb_false_iff in H; apply H.
Qed.

Lemma prefix_contains (sub s : string) :
  String.prefix sub s = true -> contains sub s = true.
Proof.
  destruct s; cbn [contains]; intros ->; reflexivity.
Qed.

(** A text that holds no separator is one piece. *)
Lemma split_from_no_sep (sep s : string) :
  contains sep s = false ->
  forall piece, split_from sep 0 piece s = [piece ++ s].
Proof.
  intros Hno piece.
  rewrite <- (append_nil_r s) at 1. rewrite split_from_through.
  - reflexivity.
  - intros a1 c a2 Heq. rewrite append_nil_r.
    apply contains_prefix_false. apply (contains_suffix sep a1). rewrite <- Heq. exact Hno.
Qed.

(** A separator that begins with ['/'] and another character cannot start
    inside a text that never has these two characters in a row, when what
    follows the text begins with ['/']. *)
Lemma no_start_before_slash (x : ascii) (sep' a b : string) :
  x <> "/"%char ->
  contains (String "/" (String x EmptyString)) a = false ->
  forall a1 c a2,
    a = a1 ++ String c a2 ->
    String.prefix (String "/" (String x sep')) (String c a2 ++ String "/" b) = false.
Proof.
  intros Hx Hno a1 c a2 Heq.
  assert (contains (String "/" (String x EmptyString)) (String c a2) = false) as Hsuf
    by (apply (contains_suffix _ a1); rewrite <- Heq; exact Hno).
  apply contains_prefix_false in Hsuf.
  cbn [append String.prefix] in *.
  destruct (ascii_dec "/" c) as [Hc|Hc]; [|reflexivity].
  destruct a2 as [|d a2]; cbn [append String.prefix] in *.
  - destruct (ascii_dec x "/") as [Hd|Hd]; [contradiction|reflexivity].
  - destruct (ascii_dec x d) as [Hd|Hd]; [|reflexivity].
    destruct a2; discriminate.
Qed.

(** In a text without the separating character, no separator starts. *)
Lemma no_start_char (ch : ascii) (a b : string) :
  contains (String ch EmptyString) a = false ->
  forall a1 c a2,
    a = a1 ++ String c a2 ->
    String.prefix (String ch EmptyString) (String c a2 ++ b) = false.
Proof.
  intros Hno a1 c a2 Heq.
  assert (contains (String ch EmptyString) (String c a2) = false) as Hsuf
    by (apply (contains_suffix _ a1); rewrite <- Heq; exact Hno).
  apply contains_prefix_false in Hsuf.
  cbn [append String.prefix] in *.
  destruct (ascii_dec ch c) as [Hc|Hc]; [|reflexivity].
  destruct a2; discriminate.
Qed.

(** The tail of a URL after the identifier: nothing, a path or a query. *)
Lemma first_piece_stops (ch : ascii) (a tail : string) :
  contains (String ch EmptyString) a = false ->
  tail = EmptyString \/ (exists t, tail = String ch t) ->
  first_piece (String ch EmptyString) (a ++ tail) = a.
Proof.
  intros Hno Htail. unfold first_piece, split.
  rewrite (split_from_through _ a tail (no_start_char ch a tail Hno)).
  cbn [append]. destruct Htail as [->|[t ->]].
  - reflexivity.
  - change (String ch t) with (String ch EmptyString ++ t).
    rewrite split_from_match. reflexivity.
Qed.

Lemma hd_split_from_piece (sep b : string) :
  forall piece,
    hd EmptyString (split_from sep 0 piece b)
    = piece ++ hd EmptyString (split_from sep 0 EmptyString b).
Proof.
  induction b as [|c b IH]; intros piece; cbn [split_from hd].
  - rewrite append_nil_r. reflexivity.
  - destruct (String.prefix sep (String c b)).
    + cbn. rewrite append_nil_r. reflexivity.
    + cbn [append]. rewrite (IH (piece ++ String c EmptyString)).
      rewrite (IH (String c EmptyString)).
      rewrite append_assoc. reflexivity.
Qed.

Lemma first_piece_app (ch : ascii) (a b : string) :
  contains (String ch EmptyString) a = false ->
  first_piece (String ch EmptyString) (a ++ b)
  = a ++ first_piece (String ch EmptyString) b.
Proof.
  intros Hno. unfold first_piece, split.
  rewrite (split_from_through _ a b (no_start_char ch a b Hno)). cbn [append].
  apply hd_split_from_piece.
Qed.

(** What is read of an identifier that is followed by nothing, by a path
    or by a query. *)
Lemma url_identifier (id tail : string) :
  contains "/" id = false ->
  contains "?" id = false ->
  tail = EmptyString \/ (exists t, tail = String "/" t) \/ (exists t, tail = String "?" t) ->
  first_piece "?" (first_piece "/" (id ++ tail)) = id.
Proof.
  intros Hslash Hquery Htail.
  assert (first_piece "?" id = id) as Hid.
  { rewrite <- (append_nil_r id) at 1.
    apply first_piece_stops; [exact Hquery|left; reflexivity]. }
  destruct Htail as [->|[[t ->]|[t ->]]].
  - rewrite first_piece_stops; [exact Hid|exact Hslash|left; reflexivity].
  - rewrite first_piece_stops; [exact Hid|exact Hslash|right; exists t; reflexivity].
  - rewrite first_piece_app by exact Hslash.
    apply first_piece_stops; [exact Hquery|]. right.
    unfold first_piece, split. cbn [split_from String.prefix].
    destruct (ascii_dec "/" "?") as [Heq|_]; [discriminate Heq|].
    cbn [append]. rewrite hd_split_from_piece. cbn [append].
    eexists. reflexivity.
Qed.

(** The piece after the last separator, for a separator that begins with
    ['/'] and another character. *)
Lemma last_piece_after (x : ascii) (sep' base rest : string) :
  x <> "/"%char ->
  contains (String "/" (String x EmptyString)) base = false ->
  contains (String "/" (String x sep')) rest = false ->
  contains (String "/" (String x sep')) (base ++ String "/" (String x sep') ++ rest) = true /\
  last_piece (String "/" (String x sep')) (base ++ String "/" (String x sep') ++ rest) = rest.
Proof.
  intros Hx Hbase Hrest.
  pose proof (no_start_before_slash x sep' base (String x sep' ++ rest) Hx Hbase) as Hno.
  change (String "/" (String x sep' ++ rest))
    with (String "/" (String x sep') ++ rest) in Hno.
  split.
  - rewrite (contains_through _ base _ Hno).
    apply prefix_contains. apply prefix_app.
  - unfold last_piece, split.
    rewrite (split_from_through _ base _ Hno).
    rewrite split_from_match. rewrite (split_from_no_sep _ rest Hrest).
    reflexivity.
Qed.

(** With a separator of one character, only what follows its last
    occurrence is in the last piece. *)
Lemma last_split_char (ch : ascii) (a b : string) :
  forall piece,
    last (split_from (String ch EmptyString) 0 piece (a ++ String ch b)) EmptyString
    = last (split_from (String ch EmptyString) 0 EmptyString b) EmptyString.
Proof.
  assert (forall (piece : string) l, l <> [] ->
            last (piece :: l) EmptyString = last l EmptyString) as Hlast.
  { intros piece [|y l] Hl; [contradiction|reflexivity]. }
  induction a as [|c a IH]; intros piece.
  - cbn [append]. change (String ch b) with (String ch EmptyString ++ b).
    rewrite split_from_match. apply Hlast. apply split_from_nonempty.
  - cbn [append split_from].
    destruct (String.prefix (String ch EmptyString) (String c (a ++ String ch b))).
    + rewrite Hlast by apply split_from_nonempty. apply IH.
    + apply IH.
Qed.

(** ** Reading the channel URL *)

Lemma read_channel_url_some (channel_id channel_username : option string) (url : string) :
  url <> EmptyString ->
  read_channel_url channel_id channel_username (Some url)
  = if contains "/channel/" url then
      (Some (first_piece "?" (first_piece "/" (last_piece "/channel/" url))),
       channel_username)
    else if contains "/@" url then
      (channel_id, Some (first_piece "?" (first_piece "/" (last_piece "/@" url))))
    else if contains "/c/" url || contains "/user/" url then
      (channel_id, Some (first_piece "?" (last_piece "/" url)))
    else (channel_id, channel_username).
Proof.
  intros Hurl. destruct url; [contradiction|reflexivity].
Qed.

Lemma append_nonempty (a : string) (c : ascii) (b : string) :
  a ++ String c b <> EmptyString.
Proof. destruct a; discriminate. Qed.

(** The function depends on its first three arguments through what the
    URL makes of them. *)
Lemma fetch_channel_videos_by_ids (api : ChannelApi)
    (channel_id channel_username channel_url id username : option string)
    (max_results : Z) (order : string) :
  read_channel_url channel_id channel_username channel_url = (id, username) ->
  fetch_channel_videos api channel_id channel_username channel_url max_results order
  = fetch_channel_videos api id username None max_results order.
Proof.
  intros Hread. unfold fetch_channel_videos. rewrite Hread. reflexivity.
Qed.

(** X17: a URL of the form [.../channel/ID], followed by nothing, a path or
    a query, names the channel [ID]: the identifier read from the URL
    replaces the [channel_id] argument, the [channel_username] argument is
    kept, and the call fetches what a call with [channel_id = ID] and no URL
    fetches. *)
Theorem channel_url_names_channel_id (channel_id channel_username : option string)
    (base id tail : string) :
  contains "/c" base = false ->
  contains "/channel/" (id ++ tail) = false ->
  contains "/" id = false ->
  contains "?" id = false ->
  tail = EmptyString \/ (exists t, tail = String "/" t) \/ (exists t, tail = String "?" t) ->
  read_channel_url channel_id channel_username
    (Some (base ++ "/channel/" ++ id ++ tail))
  = (Some id, channel_username) /\
  forall api max_results order,
    fetch_channel_videos api channel_id channel_username
      (Some (base ++ "/channel/" ++ id ++ tail)) max_results order
    = fetch_channel_videos api (Some id) channel_username None max_results order.
Proof.
  intros Hbase Hrest Hslash Hquery Htail.
  assert (read_channel_url channel_id channel_username
            (Some (base ++ "/channel/" ++ id ++ tail))
          = (Some id, channel_username)) as Hread.
  { rewrite read_channel_url_some by apply append_nonempty.
    destruct (last_piece_after "c" "hannel/" base (id ++ tail)) as [Hin Hlast];
      [discriminate|exact Hbase|exact Hrest|].
    rewrite Hin, Hlast. rewrite url_identifier by assumption. reflexivity. }
  split; [exact Hread|].
  intros api max_results order. apply fetch_channel_videos_by_ids. exact Hread.
Qed.

Lemma channel_url_names_channel_id_witness :
  read_channel_url None None (Some "https://www.youtube.com/channel/UCtalks/videos?view=0")
  = (Some "UCtalks", None) /\
  fetch_channel_videos sample_channel_api None None
    (Some "https://www.youtube.com/channel/UCtalks/videos?view=0") 2 "date"
  = fetch_channel_videos sample_channel_api (Some "UCtalks") None None 2 "date".
Proof.
  destruct (channel_url_names_channel_id None None
              "https://www.youtube.com" "UCtalks" "/videos?view=0")
    as [Hread Hfetch];
    [reflexivity|reflexivity|reflexivity|reflexivity
    |right; left; exists "videos?view=0"; reflexivity|].
  split; [exact Hread|exact (Hfetch sample_channel_api 2%Z "date")].
Defined.

(** X18: a URL of the form [.../@HANDLE], followed by nothing, a path or a
    query, names the username [HANDLE]: the handle read from the URL
    replaces the [channel_username] argument and the [channel_id] argument
    is kept. *)
Theorem channel_url_names_handle (channel_id channel_username : option string)
    (base name tail : string) :
  contains "/channel/" (base ++ "/@" ++ name ++ tail) = false ->
  contains "/@" base = false ->
  contains "/@" (name ++ tail) = false ->
  contains "/" name = false ->
  contains "?" name = false ->
  tail = EmptyString \/ (exists t, tail = String "/" t) \/ (exists t, tail = String "?" t) ->
  read_channel_url channel_id channel_username (Some (base ++ "/@" ++ name ++ tail))
  = (channel_id, Some name) /\
  forall api max_results order,
    fetch_channel_videos api channel_id channel_username
      (Some (base ++ "/@" ++ name ++ tail)) max_results order
    = fetch_channel_videos api channel_id (Some name) None max_results order.
Proof.
  intros Hchannel Hbase Hrest Hslash Hquery Htail.
  assert (read_channel_url channel_id channel_username
            (Some (base ++ "/@" ++ name ++ tail))
          = (channel_id, Some name)) as Hread.
  { rewrite read_channel_url_some by apply append_nonempty.
    rewrite Hchannel.
    destruct (last_piece_after "@" EmptyString base (name ++ tail)) as [Hin Hlast];
      [discriminate|exact Hbase|exact Hrest|].
    rewrite Hin, Hlast. rewrite url_identifier by assumption. reflexivity. }
  split; [exact Hread|].
  intros api max_results order. apply fetch_channel_videos_by_ids. exact Hread.
Qed.

Lemma channel_url_names_handle_witness :
  read_channel_url None None (Some "https://www.youtube.com/@talkshow/videos")
  = (None, Some "talkshow") /\
  fetch_channel_videos sample_channel_api None None
    (Some "https://www.youtube.com/@talkshow/videos") 2 "date"
  = fetch_channel_videos sample_channel_api None (Some "talkshow") None 2 "date".
Proof.
  destruct (channel_url_names_handle None None
              "https://www.youtube.com" "talkshow" "/videos")
    as [Hread Hfetch];
    [reflexivity|reflexivity|reflexivity|reflexivity|reflexivity
    |right; left; exists "videos"; reflexivity|].
  split; [exact Hread|exact (Hfetch sample_channel_api 2%Z "date")].
Defined.

Lemma read_custom_url (channel_id channel_username : option string)
    (base rest : string) :
  contains "/channel/" (base ++ "/" ++ rest) = false ->
  contains "/@" (base ++ "/" ++ rest) = false ->
  contains "/c/" (base ++ "/" ++ rest) || contains "/user/" (base ++ "/" ++ rest) = true ->
  contains "/" rest = false ->
  read_channel_url channel_id channel_username (Some (base ++ "/" ++ rest))
  = (channel_id, Some (first_piece "?" rest)).
Proof.
  intros Hchannel Hhandle Hcustom Hrest.
  rewrite read_channel_url_some by apply append_nonempty.
  rewrite Hchannel, Hhandle, Hcustom.
  unfold last_piece, split.
  change ("/" ++ rest) with (String "/" rest).
  rewrite last_split_char. rewrite (split_from_no_sep _ rest Hrest).
  reflexivity.
Qed.

(** X19: a URL with [/c/] or [/user/] and with neither [/channel/] nor
    [/@] names a username by what follows its last ['/'], up to a query:
    for [.../c/NAME] and [.../user/NAME], followed by nothing or by a query,
    the username [NAME] replaces the [channel_username] argument. *)
Theorem channel_url_names_custom_name (channel_id channel_username : option string)
    (base name tail : string) :
  contains "/channel/" (base ++ "/" ++ name ++ tail) = false ->
  contains "/@" (base ++ "/" ++ name ++ tail) = false ->
  contains "/c/" (base ++ "/" ++ name ++ tail)
  || contains "/user/" (base ++ "/" ++ name ++ tail) = true ->
  contains "/" (name ++ tail) = false ->
  contains "?" name = false ->
  tail = EmptyString \/ (exists t, tail = String "?" t) ->
  read_channel_url channel_id channel_username (Some (base ++ "/" ++ name ++ tail))
  = (channel_id, Some name) /\
  forall api max_results order,
    fetch_channel_videos api channel_id channel_username
      (Some (base ++ "/" ++ name ++ tail)) max_results order
    = fetch_channel_videos api channel_id (Some name) None max_results order.
Proof.
  intros Hchannel Hhandle Hcustom Hrest Hquery Htail.
  assert (read_channel_url channel_id channel_username
            (Some (base ++ "/" ++ name ++ tail))
          = (channel_id, Some name)) as Hread.
  { rewrite read_custom_url by assumption.
    rewrite first_piece_stops by assumption. reflexivity. }
  split; [exact Hread|].
  intros api max_results order. apply fetch_channel_videos_by_ids. exact Hread.
Qed.

Lemma channel_url_names_custom_name_witness :
  read_channel_url None None (Some "https://www.youtube.com/user/talks?view=0")
  = (None, Some "talks") /\
  fetch_channel_videos sample_channel_api None None
    (Some "https://www.youtube.com/user/talks?view=0") 2 "date"
  = fetch_channel_videos sample_channel_api None (Some "talks") None 2 "date".
Proof.
  destruct (channel_url_names_custom_name None None
              "https://www.youtube.com/user" "talks" "?view=0")
    as [Hread Hfetch];
    [reflexivity|reflexivity|reflexivity|reflexivity|reflexivity
    |right; exists "view=0"; reflexivity|].
  split; [exact Hread|exact (Hfetch sample_channel_api 2%Z "date")].
Defined.

(** X20: a [/c/] or [/user/] URL that ends in ['/'] names no one: the
    empty text after the last ['/'] replaces the [channel_username]
    argument, so that a username given beside the URL is lost, and a call
    without a channel id requests nothing and returns the empty list with
    the line about missing arguments. *)
Theorem channel_url_trailing_slash (channel_id channel_username : option string)
    (base : string) :
  contains "/channel/" (base ++ "/") = false ->
  contains "/@" (base ++ "/") = false ->
  contains "/c/" (base ++ "/") || contains "/user/" (base ++ "/") = true ->
  read_channel_url channel_id channel_username (Some (base ++ "/"))
  = (channel_id, Some EmptyString) /\
  forall api max_results order,
    truthy channel_id = false ->
    fetch_channel_videos api channel_id channel_username (Some (base ++ "/"))
      max_results order
    = ([], ["Either channel_id, channel_username, or channel_url must be provided"]).
Proof.
  intros Hchannel Hhandle Hcustom.
  assert (read_channel_url channel_id channel_username (Some (base ++ "/"))
          = (channel_id, Some EmptyString)) as Hread.
  { apply (read_custom_url channel_id channel_username base EmptyString);
      [exact Hchannel|exact Hhandle|exact Hcustom|reflexivity]. }
  split; [exact Hread|].
  intros api max_results order Hid.
  rewrite (fetch_channel_videos_by_ids _ _ _ _ _ _ _ _ Hread).
  unfold fetch_channel_videos. cbn.
  destruct channel_id as [[|c id]|]; [reflexivity|discriminate Hid|reflexivity].
Qed.

Lemma channel_url_trailing_slash_witness :
  read_channel_url None (Some "talks") (Some "https://www.youtube.com/user/talks/")
  = (None, Some EmptyString) /\
  fetch_channel_videos sample_channel_api None (Some "talks")
    (Some "https://www.youtube.com/user/talks/") 2 "date"
  = ([], ["Either channel_id, channel_username, or channel_url must be provided"]) /\
  fst (fetch_channel_videos sample_channel_api None (Some "talks") None 2 "date") <> [].
Proof.
  destruct (channel_url_trailing_slash None (Some "talks")
              "https://www.youtube.com/user/talks")
    as [Hread Hfetch]; [reflexivity|reflexivity|reflexivity|].
  split; [exact Hread|].
  split; [exact (Hfetch sample_channel_api 2%Z "date" eq_refl)|].
  vm_compute. discriminate.
Defined.

(** ** From a username to a channel *)

Lemma fetch_channel_videos_username (api : ChannelApi) (channel_id : option string)
    (username : string) (max_results : Z) (order : string) :
  truthy channel_id = false ->
  lstrip_at username <> EmptyString ->
  fetch_channel_videos api channel_id (Some username) None max_results order
  = match lookup_username api (lstrip_at username) with
    | inl id => fetch_channel_videos api (Some id) None None max_results order
    | inr line => ([], [line])
    end.
Proof.
  intros Hid Hname. unfold fetch_channel_videos.
  cbn [read_channel_url fst snd].
  destruct username as [|c u]; [exfalso; apply Hname; reflexivity|].
  cbn [clean_username].
  destruct (lstrip_at (String c u)) as [|c' u'] eqn:Hstrip;
    [exfalso; apply Hname; reflexivity|].
  rewrite Hid.
  destruct (lookup_username api (String c' u')) as [id|line]; reflexivity.
Qed.

(** X21: a username without a channel id is resolved before any video is
    searched: its leading ['@'] characters are dropped, the legacy lookup is
    asked first and, only when that has no item, the channel search; the
    call then fetches what a call with the channel id found fetches.  When
    neither knows the name, or when one of the two requests fails, the
    function returns the empty list and prints one line. *)
Theorem fetch_channel_videos_resolves_username (api : ChannelApi)
    (channel_id : option string) (username : string) (max_results : Z) (order : string) :
  truthy channel_id = false ->
  lstrip_at username <> EmptyString ->
  fetch_channel_videos api channel_id (Some username) None max_results order
  = match channels_list_forUsername api (lstrip_at username) with
    | Ok (Some id) => fetch_channel_videos api (Some id) None None max_results order
    | Ok None =>
        match search_channel api (lstrip_at username) with
        | Ok (Some id) => fetch_channel_videos api (Some id) None None max_results order
        | Ok None =>
            ([], ["Channel username '" ++ lstrip_at username ++ "' not found"])
        | Raise e => ([], ["Error looking up channel username: " ++ exn_str e])
        end
    | Raise e => ([], ["Error looking up channel username: " ++ exn_str e])
    end.
Proof.
  intros Hid Hname.
  rewrite fetch_channel_videos_username by assumption.
  unfold lookup_username.
  destruct (channels_list_forUsername api (lstrip_at username)) as [[id|]|e];
    [reflexivity| |reflexivity].
  destruct (search_channel api (lstrip_at username)) as [[id|]|e]; reflexivity.
Qed.

Lemma fetch_channel_videos_resolves_username_witness :
  fetch_channel_videos sample_channel_api None (Some "@talkshow") None 5 "date"
  = fetch_channel_videos sample_channel_api (Some "UCshow") None None 5 "date" /\
  fetch_channel_videos sample_channel_api None (Some "@broken") None 5 "date"
  = ([], ["Error looking up channel username: timed out"]) /\
  fetch_channel_videos sample_channel_api None (Some "nobody") None 5 "date"
  = ([], ["Channel username 'nobody' not found"]).
Proof.
  split; [|split].
  - apply (fetch_channel_videos_resolves_username sample_channel_api None "@talkshow");
      [reflexivity|discriminate].
  - apply (fetch_channel_videos_resolves_username sample_channel_api None "@broken");
      [reflexivity|discriminate].
  - apply (fetch_channel_videos_resolves_username sample_channel_api None "nobody");
      [reflexivity|discriminate].
Defined.

(** X22: which arguments count.  A channel id that is not empty makes the
    username irrelevant: the result is the search of that channel's videos,
    and no lookup is made.  A username counts without its leading ['@']
    characters.  Without a channel id, a username that is empty once its
    ['@'] characters are dropped is no username: nothing is requested, and
    the function returns the empty list with the line about missing
    arguments. *)
Theorem fetch_channel_videos_arguments (api : ChannelApi) (max_results : Z)
    (order : string) :
  (forall c id channel_username,
     fetch_channel_videos api (Some (String c id)) channel_username None max_results order
     = fetch_videos_of api (String c id) max_results order) /\
  (forall channel_id username,
     fetch_channel_videos api channel_id (Some (String "@" username)) None
       max_results order
     = fetch_channel_videos api channel_id (Some username) None max_results order) /\
  (forall channel_id channel_username,
     truthy channel_id = false ->
     channel_username = None \/
     (exists username, channel_username = Some username /\
                       lstrip_at username = EmptyString) ->
     fetch_channel_videos api channel_id channel_username None max_results order
     = ([], ["Either channel_id, channel_username, or channel_url must be provided"])).
Proof.
  split; [|split].
  - intros c id channel_username. unfold fetch_channel_videos.
    cbn [read_channel_url fst snd truthy].
    destruct (clean_username channel_username) as [[|c' u]|]; reflexivity.
  - intros channel_id username. unfold fetch_channel_videos.
    cbn [read_channel_url fst snd].
    destruct username as [|c u].
    + cbn. destruct channel_id as [[|c id]|]; reflexivity.
    + reflexivity.
  - intros channel_id channel_username Hid Hname. unfold fetch_channel_videos.
    cbn [read_channel_url fst snd].
    assert (match clean_username channel_username with
            | Some (String _ _) => False
            | _ => True
            end) as Hclean.
    { destruct Hname as [->|[username [-> Hstrip]]]; [exact I|].
      destruct username as [|c u]; [exact I|].
      cbn [clean_username]. rewrite Hstrip. exact I. }
    destruct (clean_username channel_username) as [[|c u]|]; [|contradiction|];
      destruct channel_id as [[|c id]|]; try reflexivity; discriminate Hid.
Qed.

(** ** The videos a search returns *)





